(** * agentic-cli: the workflow graphs and the command sandbox

    A shallow embedding of the Python sources
      src/core/state.py, src/tools/subprocess.py, src/graphs/executor.py,
      src/graphs/planner.py, src/graphs/researcher.py, src/graphs/main.py
    and of the pause test of src/cli/main.py.

    Python values are modelled as follows.  An [int] is a [Z].  A [str] is a
    [string]; [lower] and [upper] act on the ASCII letters.  A [TypedDict]
    is a record; a key that the code reads with [.get(key, default)] is an
    [option] field, [None] standing for a key that was never written.  The
    channels of a graph are the keys its state class declares; a key a
    node returns and the class does not declare reaches no channel.  An
    exception is a value of [Exception]; a function that may raise returns
    a [result].  The operating system, the completion service, the search
    service and [json.loads] are oracles, handed to the functions that
    call them; what a node did to the outside world is logged in
    [World]. *)

From Stdlib Require Import ZArith Ascii String DecimalString Lia.
From stdpp Require Import base list strings gmap.

Local Open Scope string_scope.
Local Open Scope Z_scope.

(** ** Python primitives *)

Module Py.

Inductive ExcKind :=
  | IndexError | KeyError | TypeError | AttributeError
  | JSONDecodeError | OSError | OtherError.

(** An exception: its class and the text [str(e)] gives. *)
Record Exception := Exc { exc_kind : ExcKind; exc_str : string }.

Inductive result (A : Type) :=
  | Ok (a : A)
  | Raise (e : Exception).
Arguments Ok {A} a.
Arguments Raise {A} e.

Definition bind {A B} (r : result A) (k : A -> result B) : result B :=
  match r with
  | Ok a => k a
  | Raise e => Raise e
  end.

Definition nl : string := String (ascii_of_nat 10) EmptyString.
Definition backslash : string := String (ascii_of_nat 92) EmptyString.

(** [len(l)] *)
Definition len {A} (l : list A) : Z := Z.of_nat (length l).

(** The position a Python index denotes: [i] itself when [0 <= i < len],
    [len + i] when [-len <= i < 0], and [IndexError] otherwise. *)
Definition position {A} (l : list A) (i : Z) : result nat :=
  if (0 <=? i) && (i <? len l) then Ok (Z.to_nat i)
  else if (i <? 0) && (- len l <=? i) then Ok (Z.to_nat (len l + i))
  else Raise (Exc IndexError "list index out of range").

(** [l[i]] *)
Definition getitem {A} (l : list A) (i : Z) : result A :=
  bind (position l i) (fun n =>
    match l !! n with
    | Some x => Ok x
    | None => Raise (Exc IndexError "list index out of range")
    end).

(** [l[i] = x] *)
Definition setitem {A} (l : list A) (i : Z) (x : A) : result (list A) :=
  bind (position l i) (fun n => Ok (<[n := x]> l)).

(** [o or empty]: an optional string, the empty string for [None]. *)
Definition or_empty (o : option string) : string :=
  match o with
  | Some s => s
  | None => EmptyString
  end.

Definition is_upper (c : ascii) : bool :=
  let n := nat_of_ascii c in (65 <=? n)%nat && (n <=? 90)%nat.
Definition is_lower (c : ascii) : bool :=
  let n := nat_of_ascii c in (97 <=? n)%nat && (n <=? 122)%nat.

Definition lower_char (c : ascii) : ascii :=
  if is_upper c then ascii_of_nat (nat_of_ascii c + 32) else c.
Definition upper_char (c : ascii) : ascii :=
  if is_lower c then ascii_of_nat (nat_of_ascii c - 32) else c.

Fixpoint str_map (f : ascii -> ascii) (s : string) : string :=
  match s with
  | EmptyString => EmptyString
  | String c r => String (f c) (str_map f r)
  end.

(** [s.lower()] and [s.upper()] *)
Definition lower : string -> string := str_map lower_char.
Definition upper : string -> string := str_map upper_char.

(** [needle in hay] for two strings. *)
Fixpoint contains (needle hay : string) : bool :=
  String.prefix needle hay ||
  match hay with
  | EmptyString => false
  | String _ r => contains needle r
  end.

Definition is_space (c : ascii) : bool :=
  let n := nat_of_ascii c in
  ((9 <=? n)%nat && (n <=? 13)%nat) || ((28 <=? n)%nat && (n <=? 32)%nat).

Fixpoint lstrip (s : string) : string :=
  match s with
  | EmptyString => EmptyString
  | String c r => if is_space c then lstrip r else s
  end.

Fixpoint rstrip (s : string) : string :=
  match s with
  | EmptyString => EmptyString
  | String c r =>
      match rstrip r with
      | EmptyString => if is_space c then EmptyString else String c EmptyString
      | r' => String c r'
      end
  end.

(** [s.strip()] *)
Definition strip (s : string) : string := rstrip (lstrip s).

(** [s.replace(old, new)] for a non-empty [old]: occurrences are replaced
    from the left and do not overlap; [skip] counts the characters of an
    occurrence still to be dropped. *)
Fixpoint replace_from (old new : string) (skip : nat) (s : string) : string :=
  match s with
  | EmptyString => EmptyString
  | String c r =>
      match skip with
      | S k => replace_from old new k r
      | O =>
          if String.prefix old s
          then new +:+ replace_from old new (String.length old - 1) r
          else String c (replace_from old new 0 r)
      end
  end.

Definition replace (old new s : string) : string := replace_from old new 0 s.

(** [str(n)] for an [int]. *)
Definition str_of_int (n : Z) : string := NilZero.string_of_int (Z.to_int n).

End Py.

Export Py.

#[export] Instance result_bind : MBind result := fun A B k r => Py.bind r k.

(** ** The outside world *)

(** What became of [process.kill()] and of the [process.communicate()]
    that follows it in the handler of [TimeoutExpired].  The process
    [Popen] started, and [kill()] signals, is the shell ([shell=True]):
    what the shell started is not signalled and keeps its ends of the
    pipes.  The second [communicate()] is given no timeout and waits
    until every holder of the pipes has closed them, [held] seconds after
    the kill; nothing in the code bounds [held]. *)
Inductive AfterKill :=
  | KillRaises (e : Exception)
      (* [process.kill()] raised *)
  | Collected (held : Z) (outs errs : option string)
      (* [communicate()] returned [(outs, errs)] after [held] seconds *)
  | CollectRaises (held : Z) (e : Exception).
      (* [communicate()] raised after [held] seconds *)

(** What became of a spawned process at [communicate(timeout=...)]. *)
Inductive Communicate :=
  | Completes (returncode : Z) (stdout stderr : string)
      (* the process ended in time *)
  | TimeoutExpired (after_kill : AfterKill)
      (* the timeout ran out and the handler was entered *)
  | CommunicateRaises (e : Exception).

(** What became of [subprocess.Popen(command, shell=True, ...)]. *)
Inductive Launch :=
  | PopenRaises (e : Exception)
  | Spawned (c : Communicate).

Inductive Event :=
  | EvPopen (command : string)
  | EvKill (command : string) (held : Z)
      (* the shell of [command] was killed and [communicate()] then took
         [held] seconds *)
  | EvComplete (n : nat)
  | EvSearch (query : string).

(** The log of the effects performed so far, oldest first. *)
Definition World := list Event.

Definition is_popen (e : Event) : bool :=
  match e with EvPopen _ => true | _ => false end.
Definition is_complete (e : Event) : bool :=
  match e with EvComplete _ => true | _ => false end.
Definition is_search (e : Event) : bool :=
  match e with EvSearch _ => true | _ => false end.

Definition count (p : Event -> bool) (w : World) : nat :=
  length (filter (fun e => p e = true) w).

(** ** src/tools/subprocess.py *)

Module SafeSubprocess.

Record t := { default_timeout : Z }.

(** [SafeSubprocess()] *)
Definition init : t := {| default_timeout := 60 |}.

Definition forbidden_patterns : list string :=
  ["rm -rf /"; "format c:"; "rd /s /q c:" +:+ backslash].

Section Run.
(** [os n command timeout]: the fate of the [n]-th process spawned, when
    it runs [command] and is waited for during [timeout] seconds. *)
Variable os : nat -> string -> Z -> Launch.

(** The [for pattern in forbidden_patterns] loop: does some pattern
    occur in [command.lower()]? *)
Definition blocked (command : string) : bool :=
  existsb (fun pattern => contains pattern (lower command)) forbidden_patterns.

Definition run (self : t) (command : string) (timeout : option Z) (w : World)
  : (Z * string * string) * World :=
  if blocked command then
    ((-1, EmptyString, "CRITICAL SECURITY: Command blocked by SafeSubprocess: " +:+ command), w)
  else
    let timeout_val :=
      match timeout with Some v => v | None => default_timeout self end in
    match os (count is_popen w) command timeout_val with
    | PopenRaises e =>
        ((-1, EmptyString, "Execution failed: " +:+ exc_str e), w)
    | Spawned (Completes returncode stdout stderr) =>
        ((returncode, stdout, stderr), (w ++ [EvPopen command])%list)
    | Spawned (TimeoutExpired (Collected held outs errs)) =>
        (* process.kill(); outs, errs = process.communicate() *)
        ((124, or_empty outs,
          "Command timed out after " +:+ str_of_int timeout_val +:+ "s. "
            +:+ or_empty errs),
         (w ++ [EvPopen command; EvKill command held])%list)
    | Spawned (TimeoutExpired (KillRaises e)) =>
        (* the handler is inside the outer [try]: [except Exception] *)
        ((-1, EmptyString, "Execution failed: " +:+ exc_str e),
         (w ++ [EvPopen command])%list)
    | Spawned (TimeoutExpired (CollectRaises held e)) =>
        ((-1, EmptyString, "Execution failed: " +:+ exc_str e),
         (w ++ [EvPopen command; EvKill command held])%list)
    | Spawned (CommunicateRaises e) =>
        ((-1, EmptyString, "Execution failed: " +:+ exc_str e), (w ++ [EvPopen command])%list)
    end.
End Run.

End SafeSubprocess.

(** ** src/core/state.py *)

(** The [command] entry of a step dictionary: the key may be missing from
    the JSON the planner received, or hold [None], or hold a string. *)
Inductive Command :=
  | NoKey
  | PyNone
  | Str (s : string).

Record PlanStep := {
  id : string;
  description : string;
  command : Command;
  risk_level : string;
  status : string;
  output : option string
}.

Inductive Role := human | ai | system.

Record Message := { role : Role; content : string }.

Definition HumanMessage (c : string) : Message := {| role := human; content := c |}.
Definition SystemMessage (c : string) : Message := {| role := system; content := c |}.

(** A record of [execution_history].  [h_step_id] and [h_return_code] are
    [None] when the dictionary has no such key; [h_command] is the value
    under the key ["command"], which may be Python's [None]. *)
Record HistoryItem := {
  h_step_id : option string;
  h_command : option string;
  h_return_code : option Z;
  h_output : string
}.

(** The channels of every graph: the keys of [class GlobalState]. *)
Record GlobalState := {
  messages : list Message;
  plan : list PlanStep;
  current_step_index : option Z;
  research_outputs : option (list string);
  execution_history : option (list HistoryItem);
  user_validated : option bool;
  file_context : gmap string string
}.

(** What a node hands back under the key ["messages"]: a list of new
    messages, or the channel's own list after the node appended to it in
    place. *)
Inductive MessagesWrite :=
  | NewMessages (l : list Message)
  | ChannelList (l : list Message).

(** The dictionary a node returns; [None] is a key the node left out. *)
Record Update := {
  u_messages : option MessagesWrite;
  u_plan : option (list PlanStep);
  u_current_step_index : option Z;
  u_research_outputs : option (list string);
  u_execution_history : option (list HistoryItem);
  u_user_validated : option bool;
  u_grader_decision : option string;
  u_route_target : option string
}.

Definition no_update : Update :=
  {| u_messages := None; u_plan := None; u_current_step_index := None;
     u_research_outputs := None; u_execution_history := None;
     u_user_validated := None; u_grader_decision := None;
     u_route_target := None |}.

(** The reducer of the [messages] channel: messages the channel already
    holds (matched by their id) stay in place, new ones are appended. *)
Definition add_messages (left : list Message) (right : MessagesWrite) : list Message :=
  match right with
  | NewMessages l => (left ++ l)%list
  | ChannelList l => l
  end.

(** Every other channel keeps the last value written. *)
Definition last_value {A} (old : option A) (new : option A) : option A :=
  match new with
  | Some v => Some v
  | None => old
  end.

(** The state after a node returned [u].  Every graph of the repository is
    a [StateGraph(GlobalState)], whose channels are the keys of
    [GlobalState]: what a node returns under another key
    (["_grader_decision"], ["_route_target"]) is written to no channel
    and is gone. *)
Definition apply_update (st : GlobalState) (u : Update) : GlobalState :=
  {| messages :=
       match u_messages u with
       | Some r => add_messages (messages st) r
       | None => messages st
       end;
     plan := match u_plan u with Some p => p | None => plan st end;
     current_step_index := last_value (current_step_index st) (u_current_step_index u);
     research_outputs := last_value (research_outputs st) (u_research_outputs u);
     execution_history := last_value (execution_history st) (u_execution_history u);
     user_validated := last_value (user_validated st) (u_user_validated u);
     file_context := file_context st |}.

(** [state.get(key)] for a key that [GlobalState] does not declare: the
    state a node or an edge is handed holds the declared channels only,
    and nothing is found under [key], whatever a node returned under
    it. *)
Definition undeclared (key : string) (state : GlobalState) : option string := None.

(** [state[key]] for a key that may be missing. *)
Definition state_key {A} (key : string) (v : option A) : result A :=
  match v with
  | Some a => Ok a
  | None => Raise (Exc KeyError key)
  end.

Definition set_status (s : string) (step : PlanStep) : PlanStep :=
  {| id := id step; description := description step; command := command step;
     risk_level := risk_level step; status := s; output := output step |}.

Definition set_output (o : string) (step : PlanStep) : PlanStep :=
  {| id := id step; description := description step; command := command step;
     risk_level := risk_level step; status := status step; output := Some o |}.

(** [step.get("command")] *)
Definition get_command (step : PlanStep) : option string :=
  match command step with
  | NoKey | PyNone => None
  | Str s => Some s
  end.

(** [step.get("command", default)]: the default stands in for a missing
    key only, a stored [None] is returned as it is. *)
Definition get_command_or (step : PlanStep) (default : string) : option string :=
  match command step with
  | NoKey => Some default
  | PyNone => None
  | Str s => Some s
  end.

(** [needle in hay] where [hay] may be [None]. *)
Definition str_in (needle : string) (hay : option string) : result bool :=
  match hay with
  | Some h => Ok (contains needle h)
  | None => Raise (Exc TypeError "argument of type 'NoneType' is not iterable")
  end.

(** [not command] for an optional string. *)
Definition falsy (c : option string) : bool :=
  match c with
  | None => true
  | Some s => String.eqb s EmptyString
  end.

(** [llm.invoke(input)]: [llm n input] is the text of the [n]-th
    completion the service is asked for. *)
Definition llm_invoke (llm : nat -> list Message -> string)
  (input : list Message) (w : World) : string * World :=
  (llm (count is_complete w) input, (w ++ [EvComplete (count is_complete w)])%list).

(** ** The graph engine

    What [StateGraph] does with the nodes and edges a [create_*_graph]
    function hands it: enter a node, merge its update into the state,
    follow the edge that leaves it, and stop at [END], at an exception, or
    before a node listed in [interrupt_before].  A conditional edge reads
    the state with the update of its node merged; when the node or the
    edge raises, the update is dropped and the run ends on the state the
    node was entered with. *)

Module Graph.

Inductive Edge (Node : Type) :=
  | Goto (n : Node)                       (* add_edge(a, b) *)
  | GotoEND                               (* add_edge(a, END) *)
  | Conditional (path : GlobalState -> result string)
                (path_map : list (string * Node)).
                                          (* add_conditional_edges(a, path, path_map) *)
Arguments Goto {Node} n.
Arguments GotoEND {Node}.
Arguments Conditional {Node} path path_map.

Inductive Halt (Node : Type) :=
  | Ended                                 (* END was reached *)
  | Raised (e : Exception) (n : Node)     (* node [n], or the edge leaving it, raised *)
  | Interrupted (n : Node)                (* stopped before entering [n] *)
  | OutOfSteps.                           (* the step budget ran out first *)
Arguments Ended {Node}.
Arguments Raised {Node} e n.
Arguments Interrupted {Node} n.
Arguments OutOfSteps {Node}.

(** A node that was entered, the state it was entered with and that state
    with the update of the node merged into it ([before] again when the
    node raised). *)
Record Visit (Node : Type) := {
  at_node : Node;
  before : GlobalState;
  after : GlobalState
}.
Arguments Build_Visit {Node}.
Arguments at_node {Node} v.
Arguments before {Node} v.
Arguments after {Node} v.

Record Run (Node : Type) := {
  halt : Halt Node;
  final : GlobalState;
  world : World;
  visits : list (Visit Node)              (* the nodes entered, in order *)
}.
Arguments halt {Node} r.
Arguments final {Node} r.
Arguments world {Node} r.
Arguments visits {Node} r.

Fixpoint assoc {A} (key : string) (l : list (string * A)) : option A :=
  match l with
  | [] => None
  | (k, v) :: r => if String.eqb k key then Some v else assoc key r
  end.

Section Engine.
Context {Node : Type}.
(** A node run on a state: [None] when a nested graph ran out of steps. *)
Variable invoke : Node -> GlobalState -> World -> option (result (GlobalState * World)).
Variable edge : Node -> Edge Node.
Variable interrupt_before : Node -> bool.

Definition follow (n : Node) (st : GlobalState) : result (option Node) :=
  match edge n with
  | Goto m => Ok (Some m)
  | GotoEND => Ok None
  | Conditional path path_map =>
      label ← path st;
      match assoc label path_map with
      | Some m => Ok (Some m)
      | None => Raise (Exc KeyError label)
      end
  end.

(** [resumed] is true when the run continues from an interrupt: the node
    it stopped before is then entered. *)
Fixpoint run (steps : nat) (resumed : bool) (n : Node) (st : GlobalState) (w : World)
  : Run Node :=
  match steps with
  | O => {| halt := OutOfSteps; final := st; world := w; visits := [] |}
  | S steps =>
      if interrupt_before n && negb resumed then
        {| halt := Interrupted n; final := st; world := w; visits := [] |}
      else
        match invoke n st w with
        | None =>
            {| halt := OutOfSteps; final := st; world := w;
               visits := [Build_Visit n st st] |}
        | Some (Raise e) =>
            {| halt := Raised e n; final := st; world := w;
               visits := [Build_Visit n st st] |}
        | Some (Ok (st', w')) =>
            match follow n st' with
            | Raise e =>
                {| halt := Raised e n; final := st; world := w';
                   visits := [Build_Visit n st st'] |}
            | Ok None =>
                {| halt := Ended; final := st'; world := w';
                   visits := [Build_Visit n st st'] |}
            | Ok (Some m) =>
                let r := run steps false m st' w' in
                {| halt := halt r; final := final r; world := world r;
                   visits := Build_Visit n st st' :: visits r |}
            end
        end
  end.
End Engine.

(** A plain node: a function from the state to an update. *)
Definition plain (f : GlobalState -> result Update) (st : GlobalState) (w : World)
  : option (result (GlobalState * World)) :=
  Some (u ← f st; Ok (apply_update st u, w)).

(** A node that also acts on the outside world. *)
Definition effectful (f : GlobalState -> World -> result (Update * World))
  (st : GlobalState) (w : World) : option (result (GlobalState * World)) :=
  Some (r ← f st w; Ok (apply_update st r.1, r.2)).

(** A compiled graph used as a node of another graph. *)
Definition subgraph {Node} (r : Run Node) : option (result (GlobalState * World)) :=
  match halt r with
  | Ended => Some (Ok (final r, world r))
  | Raised e _ => Some (Raise e)
  | Interrupted _ | OutOfSteps => None
  end.

End Graph.

(** ** src/graphs/executor.py *)

Module Executor.

Definition safe_runner : SafeSubprocess.t := SafeSubprocess.init.

Definition step_parser (state : GlobalState) : result Update :=
  let plan := plan state in
  let idx := default 0 (current_step_index state) in
  if len plan <=? idx then
    Ok {| u_messages := None; u_plan := None; u_current_step_index := Some idx;
          u_research_outputs := None; u_execution_history := None;
          u_user_validated := None; u_grader_decision := None;
          u_route_target := None |}
  else
    current_step ← getitem plan idx;
    let current_step := set_status "in_progress" current_step in
    plan ← setitem plan idx current_step;
    Ok {| u_messages := None; u_plan := Some plan; u_current_step_index := None;
          u_research_outputs := None; u_execution_history := None;
          u_user_validated := None; u_grader_decision := None;
          u_route_target := None |}.

Definition safety_guard (state : GlobalState) : result Update :=
  idx ← state_key "current_step_index" (current_step_index state);
  step ← getitem (plan state) idx;
  let command := get_command_or step EmptyString in
  (* if not state.get("user_validated", False): pass *)
  let _ := if negb (default false (user_validated state)) then tt else tt in
  hit ← str_in "rm -rf /" command;
  if (hit : bool) then
    Ok {| u_messages := None; u_plan := Some (plan state);
          u_current_step_index := None;
          u_research_outputs := None; u_execution_history := None;
          u_user_validated := None; u_grader_decision := None;
          u_route_target := None |}
  else Ok no_update.

Section Runner.
Variable os : nat -> string -> Z -> Launch.

Definition terminal_runner (state : GlobalState) (w : World)
  : result (Update * World) :=
  idx ← state_key "current_step_index" (current_step_index state);
  let plan := plan state in
  step ← getitem plan idx;
  let command := get_command step in
  if falsy command then
    let step := set_output "(No command executed)" (set_status "done" step) in
    plan ← setitem plan idx step;
    Ok ({| u_messages := None; u_plan := Some plan;
           u_current_step_index := Some (idx + 1);
           u_research_outputs := None;
           u_execution_history :=
             Some (default [] (execution_history state) ++
                   [{| h_step_id := None; h_command := None;
                       h_return_code := None;
                       h_output := "Skipped (no command)" |}])%list;
           u_user_validated := None; u_grader_decision := None;
           u_route_target := None |}, w)
  else
    let command := or_empty command in
    let '((return_code, stdout, stderr), w) :=
      SafeSubprocess.run os safe_runner command None w in
    let output := stdout +:+ nl +:+ stderr in
    let history_item :=
      {| h_step_id := Some (id step); h_command := Some command;
         h_return_code := Some return_code; h_output := output |} in
    if return_code =? 0 then
      let step := set_output output (set_status "done" step) in
      plan ← setitem plan idx step;
      Ok ({| u_messages := None; u_plan := Some plan;
             u_current_step_index := Some (idx + 1);
             u_research_outputs := None;
             u_execution_history :=
               Some (default [] (execution_history state) ++ [history_item])%list;
             u_user_validated := None; u_grader_decision := None;
             u_route_target := None |}, w)
    else
      let step := set_output output (set_status "failed" step) in
      plan ← setitem plan idx step;
      Ok ({| u_messages := None; u_plan := Some plan;
             u_current_step_index := None;
             u_research_outputs := None;
             u_execution_history :=
               Some (default [] (execution_history state) ++ [history_item])%list;
             u_user_validated := None; u_grader_decision := None;
             u_route_target := None |}, w).
End Runner.

Definition error_handler (state : GlobalState) : result Update :=
  let messages := messages state in
  idx ← state_key "current_step_index" (current_step_index state);
  let messages :=
    (messages ++ [SystemMessage ("Execution failed at step " +:+ str_of_int (idx + 1) +:+ ".")])%list in
  Ok {| u_messages := Some (ChannelList messages); u_plan := None;
        u_current_step_index := None;
        u_research_outputs := None; u_execution_history := None;
        u_user_validated := None; u_grader_decision := None;
        u_route_target := None |}.

(** *** Edges *)

(** Defined in the source, attached to no node of the graph. *)
Definition check_step_completion (state : GlobalState) : result string :=
  let idx := default 0 (current_step_index state) in
  if len (plan state) <=? idx then Ok "end"
  else
    step ← getitem (plan state) idx;
    if String.eqb (status step) "failed" then Ok "end"
    else Ok "terminal_runner".

Definition check_execution_result (state : GlobalState) : result string :=
  idx ← state_key "current_step_index" (current_step_index state);
  current_step ← getitem (plan state) idx;
  if String.eqb (status current_step) "failed" then Ok "error_handler"
  else if len (plan state) <=? idx then Ok "step_parser"
  else Ok "step_parser".

(** *** The graph *)

Inductive Node := step_parser_ | safety_guard_ | terminal_runner_ | error_handler_.

Section Compiled.
Variable os : nat -> string -> Z -> Launch.

Definition invoke (n : Node) : GlobalState -> World -> option (result (GlobalState * World)) :=
  match n with
  | step_parser_ => Graph.plain step_parser
  | safety_guard_ => Graph.plain safety_guard
  | terminal_runner_ => Graph.effectful (terminal_runner os)
  | error_handler_ => Graph.plain error_handler
  end.

(** [create_executor_graph] *)
Definition entry_point : Node := step_parser_.

Definition edge (n : Node) : Graph.Edge Node :=
  match n with
  | step_parser_ => Graph.Goto safety_guard_
  | safety_guard_ => Graph.Goto terminal_runner_
  | terminal_runner_ =>
      Graph.Conditional check_execution_result
        [("step_parser", step_parser_); ("error_handler", error_handler_)]
  | error_handler_ => Graph.GotoEND
  end.

(** One run of the compiled graph with a budget of [steps] node visits. *)
Definition run (steps : nat) (st : GlobalState) (w : World) : Graph.Run Node :=
  Graph.run invoke edge (fun _ => false) steps false entry_point st w.
End Compiled.

End Executor.

(** ** src/graphs/planner.py *)

Module Planner.

(** The values [json.loads] produces. *)
#[warnings="-register-all"]
Inductive json :=
  | JNull
  | JBool (b : bool)
  | JNumber (n : Z)
  | JString (s : string)
  | JArray (l : list json)
  | JObject (m : list (string * json)).

Definition type_error (msg : string) : Exception := Exc TypeError msg.

(** The values [for step in plan_data] visits. *)
Definition iterate (plan_data : json) : result (list json) :=
  match plan_data with
  | JArray l => Ok l
  | JObject m => Ok (map (fun kv => JString kv.1) m)
  | JString s => Ok (map (fun c => JString (String c EmptyString)) (list_ascii_of_string s))
  | JNull => Raise (type_error "'NoneType' object is not iterable")
  | JBool _ => Raise (type_error "'bool' object is not iterable")
  | JNumber _ => Raise (type_error "'int' object is not iterable")
  end.

Definition is_string (s : string) (v : json) : bool :=
  match v with
  | JString s' => String.eqb s s'
  | _ => false
  end.

(** ["status" in step] *)
Definition has_status (step : json) : result bool :=
  match step with
  | JObject m => Ok (existsb (fun kv => String.eqb kv.1 "status") m)
  | JArray l => Ok (existsb (is_string "status") l)
  | JString s => Ok (contains "status" s)
  | JNull => Raise (type_error "argument of type 'NoneType' is not iterable")
  | JBool _ => Raise (type_error "argument of type 'bool' is not iterable")
  | JNumber _ => Raise (type_error "argument of type 'int' is not iterable")
  end.

(** [step["status"] = "pending"] *)
Definition set_pending (step : json) : result json :=
  match step with
  | JObject m => Ok (JObject (m ++ [("status", JString "pending")]))
  | JArray _ => Raise (type_error "list indices must be integers or slices, not str")
  | JString _ => Raise (type_error "'str' object does not support item assignment")
  | JNull => Raise (type_error "'NoneType' object does not support item assignment")
  | JBool _ => Raise (type_error "'bool' object does not support item assignment")
  | JNumber _ => Raise (type_error "'int' object does not support item assignment")
  end.

(** The body of the loop, for one step. *)
Definition ensure_status (step : json) : result json :=
  present ← has_status step;
  if (present : bool) then Ok step else set_pending step.

Fixpoint each (steps : list json) : result (list json) :=
  match steps with
  | [] => Ok []
  | step :: rest =>
      step' ← ensure_status step;
      rest' ← each rest;
      Ok (step' :: rest')
  end.

(** The whole loop: the steps of a list are updated in place; the keys of
    a dictionary and the characters of a string cannot be, and the data
    is left as it was when the loop gets through. *)
Definition default_statuses (plan_data : json) : result json :=
  steps ← iterate plan_data;
  steps' ← each steps;
  match plan_data with
  | JArray _ => Ok (JArray steps')
  | _ => Ok plan_data
  end.

(** Parsed data read at the type [List[PlanStep]] of src/core/state.py. *)
Definition field (key : string) (m : list (string * json)) : option json :=
  Graph.assoc key m.

Definition str_field (key : string) (m : list (string * json)) : option string :=
  match field key m with
  | Some (JString s) => Some s
  | _ => None
  end.

Definition as_step (v : json) : option PlanStep :=
  match v with
  | JObject m =>
      id ← str_field "id" m;
      description ← str_field "description" m;
      command ← match field "command" m with
                | None => Some NoKey
                | Some JNull => Some PyNone
                | Some (JString s) => Some (Str s)
                | Some _ => None
                end;
      risk_level ← str_field "risk_level" m;
      status ← str_field "status" m;
      output ← match field "output" m with
               | None | Some JNull => Some None
               | Some (JString s) => Some (Some s)
               | Some _ => None
               end;
      Some {| id := id; description := description; command := command;
              risk_level := risk_level; status := status; output := output |}
  | _ => None
  end.

Definition as_plan (v : json) : option (list PlanStep) :=
  match v with
  | JArray l => mapM as_step l
  | _ => None
  end.

Section Nodes.
(** [llm n messages]: the text of the [n]-th completion. *)
Variable llm : nat -> list Message -> string.
Variable json_loads : string -> result json.
(** The prompt is a constant of the source; its text plays no role here. *)
Variable PLANNER_PROMPT : string.

Definition invoke (input : list Message) (w : World) : string * World :=
  llm_invoke llm input w.

Definition fence : string := "```".

(** The [try] block of both nodes. *)
Definition parse (response : string) : result json :=
  let content := strip (replace fence EmptyString (replace (fence +:+ "json") EmptyString response)) in
  plan_data ← json_loads content;
  default_statuses plan_data.

(** [None]: the parsed data is not a [List[PlanStep]], and the state of
    this model cannot hold it. *)
Definition draft_plan (state : GlobalState) (w : World) : option (result (Update * World)) :=
  let messages := messages state in
  let '(response, w) :=
    invoke ([SystemMessage PLANNER_PROMPT] ++ messages ++
            [HumanMessage "Generate a plan for the above request."])%list w in
  match parse response with
  | Ok plan_data =>
      plan ← as_plan plan_data;
      Some (Ok ({| u_messages := None; u_plan := Some plan;
                   u_current_step_index := Some 0;
                   u_research_outputs := None; u_execution_history := None;
                   u_user_validated := Some false; u_grader_decision := None;
                   u_route_target := None |}, w))
  | Raise e =>
      Some (Ok ({| u_messages :=
                     Some (NewMessages [SystemMessage ("Error generating plan: " +:+ exc_str e)]);
                   u_plan := Some [];
                   u_current_step_index := None;
                   u_research_outputs := None; u_execution_history := None;
                   u_user_validated := None; u_grader_decision := None;
                   u_route_target := None |}, w))
  end.

(** [json.dumps] on a plan. *)
Variable json_dumps : list PlanStep -> string.

Definition plan_refiner (state : GlobalState) (w : World) : option (result (Update * World)) :=
  let messages := messages state in
  match getitem messages (-1) with
  | Raise e => Some (Raise e)
  | Ok last =>
      let feedback_prompt :=
        nl +:+ "    The user rejected the previous plan. " +:+ nl +:+
        "    Current Plan: " +:+ json_dumps (plan state) +:+ nl +:+
        "    User Feedback: " +:+ content last +:+ nl +:+
        "    " +:+ nl +:+
        "    Update the plan accordingly. Return the full updated JSON array." +:+ nl +:+
        "    " in
      let '(response, w) :=
        invoke [SystemMessage PLANNER_PROMPT; HumanMessage feedback_prompt] w in
      match parse response with
      | Ok plan_data =>
          plan ← as_plan plan_data;
          Some (Ok ({| u_messages := None; u_plan := Some plan;
                       u_current_step_index := None;
                       u_research_outputs := None; u_execution_history := None;
                       u_user_validated := Some false; u_grader_decision := None;
                       u_route_target := None |}, w))
      | Raise e =>
          Some (Ok ({| u_messages :=
                         Some (NewMessages [SystemMessage ("Error refining plan: " +:+ exc_str e)]);
                       u_plan := None;
                       u_current_step_index := None;
                       u_research_outputs := None; u_execution_history := None;
                       u_user_validated := None; u_grader_decision := None;
                       u_route_target := None |}, w))
      end
  end.

(** *** The graph *)

Inductive Node := draft_plan_ | plan_refiner_.

Definition lift (f : GlobalState -> World -> option (result (Update * World)))
  (st : GlobalState) (w : World) : option (result (GlobalState * World)) :=
  r ← f st w;
  Some (uw ← (r : result (Update * World)); Ok (apply_update st uw.1, uw.2)).

Definition invoke_node (n : Node) : GlobalState -> World -> option (result (GlobalState * World)) :=
  match n with
  | draft_plan_ => lift draft_plan
  | plan_refiner_ => lift plan_refiner
  end.

(** [create_planner_graph] *)
Definition entry_point : Node := draft_plan_.

Definition edge (n : Node) : Graph.Edge Node :=
  match n with
  | draft_plan_ => Graph.GotoEND
  | plan_refiner_ => Graph.GotoEND
  end.

Definition run (steps : nat) (st : GlobalState) (w : World) : Graph.Run Node :=
  Graph.run invoke_node edge (fun _ => false) steps false entry_point st w.
End Nodes.

End Planner.

(** ** src/tools/search.py *)

Module TavilySearch.

(** One entry of the ["results"] list; [None] is a missing key. *)
Record Hit := {
  title : option string;
  url : option string;
  hit_content : option string
}.

Fixpoint join (sep : string) (l : list string) : string :=
  match l with
  | [] => EmptyString
  | [x] => x
  | x :: r => x +:+ sep +:+ join sep r
  end.

Section Search.
(** [client n query]: what the [n]-th call of [client.search] gives; the
    list is the value under ["results"], empty when that key is missing. *)
Variable client : nat -> string -> result (list Hit).

Definition search (query : string) (w : World) : string * World :=
  let w' := (w ++ [EvSearch query])%list in
  match client (count is_search w) query with
  | Ok results =>
      let formatted :=
        map (fun res =>
               "Title: " +:+ default "No Title" (title res) +:+ nl +:+
               "Source: " +:+ default EmptyString (url res) +:+ nl +:+
               "Content: " +:+ default EmptyString (hit_content res) +:+ nl) results in
      match formatted with
      | [] => ("No results found.", w')
      | _ => (join (nl +:+ "---" +:+ nl) formatted, w')
      end
  | Raise e =>
      ("Search failed: " +:+ exc_str e +:+ ". (Check TAVILY_API_KEY?)", w')
  end.
End Search.

End TavilySearch.

(** ** src/graphs/researcher.py *)

Module Researcher.

Section Nodes.
Variable llm : nat -> list Message -> string.
Variable client : nat -> string -> result (list TavilySearch.Hit).

(** [llm.invoke(prompt)] with a prompt string: one human message. *)
Definition invoke (prompt : string) (w : World) : string * World :=
  llm_invoke llm [HumanMessage prompt] w.

Definition search_engine (state : GlobalState) (w : World) : result (Update * World) :=
  let messages := messages state in
  last ← getitem messages (-1);
  let last_user_msg := content last in
  let '(query, w) :=
    if (100 <? Z.of_nat (String.length last_user_msg)) then
      invoke ("Extract a concise search query from this: " +:+ last_user_msg) w
    else (last_user_msg, w) in
  let '(results, w) := TavilySearch.search client query w in
  let current_results := default [] (research_outputs state) in
  let current_results :=
    (current_results ++ ["Query: " +:+ query +:+ nl +:+ "Result: " +:+ results])%list in
  Ok ({| u_messages := None; u_plan := None; u_current_step_index := None;
         u_research_outputs := Some current_results;
         u_execution_history := None; u_user_validated := None;
         u_grader_decision := None; u_route_target := None |}, w).

Definition grader (state : GlobalState) (w : World) : result (Update * World) :=
  let messages := messages state in
  outputs ← state_key "research_outputs" (research_outputs state);
  research ← getitem outputs (-1);
  first ← getitem messages 0;
  let original_req := content first in
  let prompt :=
    nl +:+ "    User Request: " +:+ original_req +:+ nl +:+
    "    Research Result: " +:+ research +:+ nl +:+
    "    " +:+ nl +:+
    "    Does the research result contain enough information to answer the request?" +:+ nl +:+
    "    Return 'YES' or 'NO'." +:+ nl +:+
    "    " in
  let '(response, w) := invoke prompt w in
  let decision := upper (strip response) in
  Ok ({| u_messages := None; u_plan := None; u_current_step_index := None;
         u_research_outputs := None;
         u_execution_history := None; u_user_validated := None;
         u_grader_decision := Some decision; u_route_target := None |}, w).

Definition drafter (state : GlobalState) (w : World) : result (Update * World) :=
  let messages := messages state in
  outputs ← state_key "research_outputs" (research_outputs state);
  let research := TavilySearch.join (nl +:+ nl) outputs in
  last ← getitem messages (-1);
  let prompt :=
    nl +:+ "    You are a researcher. Answer the user's request based strictly on the following research." +:+ nl +:+
    "    " +:+ nl +:+
    "    Research:" +:+ nl +:+
    "    " +:+ research +:+ nl +:+
    "    " +:+ nl +:+
    "    User Request: " +:+ content last +:+ nl +:+
    "    " in
  let '(response, w) := invoke prompt w in
  Ok ({| u_messages := Some (NewMessages [{| role := ai; content := response |}]);
         u_plan := None; u_current_step_index := None;
         u_research_outputs := None;
         u_execution_history := None; u_user_validated := None;
         u_grader_decision := None; u_route_target := None |}, w).

(** *** Edges *)

Definition check_grade (state : GlobalState) : result string :=
  let decision := default "NO" (undeclared "_grader_decision" state) in
  let attempts := len (default [] (research_outputs state)) in
  if contains "YES" decision then Ok "drafter"
  else if 2 <=? attempts then Ok "drafter"
  else Ok "search_engine".

(** *** The graph *)

Inductive Node := search_engine_ | grader_ | drafter_.

Definition invoke_node (n : Node) : GlobalState -> World -> option (result (GlobalState * World)) :=
  match n with
  | search_engine_ => Graph.effectful search_engine
  | grader_ => Graph.effectful grader
  | drafter_ => Graph.effectful drafter
  end.

(** [create_researcher_graph] *)
Definition entry_point : Node := search_engine_.

Definition edge (n : Node) : Graph.Edge Node :=
  match n with
  | search_engine_ => Graph.Goto grader_
  | grader_ =>
      Graph.Conditional check_grade
        [("drafter", drafter_); ("search_engine", search_engine_)]
  | drafter_ => Graph.GotoEND
  end.

Definition run (steps : nat) (st : GlobalState) (w : World) : Graph.Run Node :=
  Graph.run invoke_node edge (fun _ => false) steps false entry_point st w.

(** How often a run entered [search_engine]. *)
Definition is_search_engine (n : Node) : bool :=
  match n with search_engine_ => true | _ => false end.

Definition searches (r : Graph.Run Node) : nat :=
  length (filter (fun v => is_search_engine (Graph.at_node v) = true) (Graph.visits r)).
End Nodes.

End Researcher.

(** ** src/graphs/main.py *)

Module Main.

Section Nodes.
Variable os : nat -> string -> Z -> Launch.
Variable llm : nat -> list Message -> string.
Variable client : nat -> string -> result (list TavilySearch.Hit).
Variable json_loads : string -> result Planner.json.
Variable json_dumps : list PlanStep -> string.
Variable PLANNER_PROMPT : string.

Definition router (state : GlobalState) (w : World) : result (Update * World) :=
  let messages := messages state in
  last ← getitem messages (-1);
  let last_msg := content last in
  let prompt :=
    nl +:+ "    Classify the following user request into one of these categories:" +:+ nl +:+
    "    - EXECUTE: The user wants to perform an action (create files, run commands, edit code)." +:+ nl +:+
    "    - RESEARCH: The user is asking a question that requires web search or external knowledge." +:+ nl +:+
    "    - CHAT: The user is saying hello, asking a clarification, or chatting casually." +:+ nl +:+
    "    " +:+ nl +:+
    "    Request: " +:+ last_msg +:+ nl +:+
    "    " +:+ nl +:+
    "    Return ONLY the category name." +:+ nl +:+
    "    " in
  let '(response, w) := llm_invoke llm [HumanMessage prompt] w in
  let category := upper (strip response) in
  let target :=
    if contains "EXECUTE" category then "planner"
    else if contains "RESEARCH" category then "researcher"
    else "chat" in
  Ok ({| u_messages := None; u_plan := None; u_current_step_index := None;
         u_research_outputs := None;
         u_execution_history := None; u_user_validated := None;
         u_grader_decision := None; u_route_target := Some target |}, w).

Definition chat_node (state : GlobalState) (w : World) : result (Update * World) :=
  let messages := messages state in
  let '(response, w) := llm_invoke llm messages w in
  Ok ({| u_messages := Some (NewMessages [{| role := ai; content := response |}]);
         u_plan := None; u_current_step_index := None;
         u_research_outputs := None;
         u_execution_history := None; u_user_validated := None;
         u_grader_decision := None; u_route_target := None |}, w).

(** *** Edges *)

Definition route_request (state : GlobalState) : result string :=
  Ok (default "chat_node" (undeclared "_route_target" state)).

(** *** The graph *)

Inductive Node := router_ | chat_node_ | planner_ | executor_ | researcher_.

(** Node visits that suffice for a nested graph to run to its end. *)
Definition executor_steps (st : GlobalState) : nat := 3 * length (plan st) + 2.
Definition researcher_steps : nat := 5.
Definition planner_steps : nat := 1.

Definition invoke (n : Node) (st : GlobalState) (w : World)
  : option (result (GlobalState * World)) :=
  match n with
  | router_ => Graph.effectful router st w
  | chat_node_ => Graph.effectful chat_node st w
  | planner_ =>
      Graph.subgraph
        (Planner.run llm json_loads PLANNER_PROMPT json_dumps planner_steps st w)
  | executor_ => Graph.subgraph (Executor.run os (executor_steps st) st w)
  | researcher_ => Graph.subgraph (Researcher.run llm client researcher_steps st w)
  end.

(** [create_main_graph] *)
Definition entry_point : Node := router_.

Definition edge (n : Node) : Graph.Edge Node :=
  match n with
  | router_ =>
      Graph.Conditional route_request
        [("planner", planner_); ("researcher", researcher_); ("chat_node", chat_node_)]
  | planner_ => Graph.Goto executor_
  | executor_ => Graph.GotoEND
  | researcher_ => Graph.GotoEND
  | chat_node_ => Graph.GotoEND
  end.

(** ** src/cli/main.py *)

(** [workflow.compile(checkpointer=..., interrupt_before=["executor"])] *)
Definition interrupt_before (n : Node) : bool :=
  match n with
  | executor_ => true
  | _ => false
  end.

Definition main_steps : nat := 3.

(** [graph.stream({"messages": [("user", input_message)]}, config)]: one
    turn on the state the thread holds. *)
Definition stream (st : GlobalState) (input_message : string) (w : World) : Graph.Run Node :=
  let st :=
    apply_update st
      {| u_messages := Some (NewMessages [HumanMessage input_message]);
         u_plan := None; u_current_step_index := None;
         u_research_outputs := None;
         u_execution_history := None; u_user_validated := None;
         u_grader_decision := None; u_route_target := None |} in
  Graph.run invoke edge interrupt_before main_steps false entry_point st w.

(** [snapshot.next], the nodes still to run: not empty exactly when the
    turn stopped at an interrupt. *)
Definition next (r : Graph.Run Node) : list Node :=
  match Graph.halt r with
  | Graph.Interrupted n => [n]
  | _ => []
  end.

(** The test [if snapshot.next:] of [process_turn]: the plan is shown and
    approval is asked for. *)
Definition asks_approval (r : Graph.Run Node) : bool :=
  match next r with
  | [] => false
  | _ => true
  end.

(** [graph.update_state(config, {"user_validated": True})] followed by
    [graph.stream(None, config)]. *)
Definition resume (r : Graph.Run Node) : Graph.Run Node :=
  match Graph.halt r with
  | Graph.Interrupted n =>
      let st :=
        apply_update (Graph.final r)
          {| u_messages := None; u_plan := None; u_current_step_index := None;
             u_research_outputs := None;
             u_execution_history := None; u_user_validated := Some true;
             u_grader_decision := None; u_route_target := None |} in
      Graph.run invoke edge interrupt_before main_steps true n st (Graph.world r)
  | _ => r
  end.
End Nodes.

End Main.

(** * Statements *)

(** ** Vocabulary of the statements *)

(** [command] holds [pattern] in some casing, with any text around it. *)
Definition mentions (pattern command : string) : Prop :=
  exists pre v post, command = pre +:+ v +:+ post /\ lower v = pattern.

(** The state an [Executor] node sees as its cursor. *)
Definition cursor (st : GlobalState) : Z := default 0 (current_step_index st).

(** The cursors with which a run entered [terminal_runner]: the steps it
    executed, in order. *)
Definition executed (vs : list (Graph.Visit Executor.Node)) : list Z :=
  omap (fun v =>
          match Graph.at_node v with
          | Executor.terminal_runner_ => Some (cursor (Graph.before v))
          | _ => None
          end) vs.

(** The status of the step at index [i] of the plan of [st]. *)
Definition status_at (st : GlobalState) (i : Z) : option string :=
  match getitem (plan st) i with
  | Ok step => Some (status step)
  | Raise _ => None
  end.

(** [terminal_runner] was entered and left the step under its cursor with
    the status [outcome]. *)
Definition ran_step (outcome : string) (v : Graph.Visit Executor.Node) : Prop :=
  Graph.at_node v = Executor.terminal_runner_ /\
  status_at (Graph.after v) (cursor (Graph.before v)) = Some outcome.

(** Every step that ended as done moved the cursor on by one. *)
Definition success_increments (vs : list (Graph.Visit Executor.Node)) : Prop :=
  Forall (fun v =>
            ran_step "done" v ->
            current_step_index (Graph.after v) = Some (cursor (Graph.before v) + 1)) vs.

(** Every step that ended as failed left the cursor where it was, and the
    one node entered after it is [error_handler]. *)
Fixpoint failure_routed (vs : list (Graph.Visit Executor.Node)) : Prop :=
  match vs with
  | [] => True
  | v :: rest =>
      (ran_step "failed" v ->
       current_step_index (Graph.after v) = current_step_index (Graph.before v) /\
       exists v', rest = [v'] /\
                  Graph.at_node v' = Executor.error_handler_ /\
                  Graph.before v' = Graph.after v) /\
      failure_routed rest
  end.

(** The cursor of [st] is set and lies between [lo] and [hi]. *)
Definition cursor_within (lo hi : Z) (st : GlobalState) : Prop :=
  exists i, current_step_index st = Some i /\ lo <= i <= hi.

(** The run came to an end by itself: at [END] or at an exception. *)
Definition halted {Node} (r : Graph.Run Node) : Prop :=
  Graph.halt r = Graph.Ended \/ exists e n, Graph.halt r = Graph.Raised e n.

(** A run that is [halted] and whose cursor, steps and routing are in
    order, for a cursor that started at [lo] in a plan of [hi] steps. *)
Definition orderly (lo hi : Z) (r : Graph.Run Executor.Node) : Prop :=
  halted r /\
  Forall (fun v => cursor_within lo hi (Graph.before v) /\
                   cursor_within lo hi (Graph.after v))
         (Graph.visits r) /\
  cursor_within lo hi (Graph.final r) /\
  success_increments (Graph.visits r) /\
  failure_routed (Graph.visits r) /\
  (Exists (ran_step "failed") (Graph.visits r) -> Graph.halt r = Graph.Ended) /\
  Forall (fun c => lo <= c < hi) (executed (Graph.visits r)) /\
  NoDup (executed (Graph.visits r)).

(** The update [{"plan": p}]. *)
Definition plan_update (p : list PlanStep) : Update :=
  {| u_messages := None; u_plan := Some p; u_current_step_index := None;
     u_research_outputs := None; u_execution_history := None;
     u_user_validated := None; u_grader_decision := None;
     u_route_target := None |}.

(** The update [{"research_outputs": l}]. *)
Definition outputs_update (l : list string) : Update :=
  {| u_messages := None; u_plan := None; u_current_step_index := None;
     u_research_outputs := Some l;
     u_execution_history := None; u_user_validated := None;
     u_grader_decision := None; u_route_target := None |}.

(** The update [{"_grader_decision": d}]. *)
Definition decision_update (d : string) : Update :=
  {| u_messages := None; u_plan := None; u_current_step_index := None;
     u_research_outputs := None;
     u_execution_history := None; u_user_validated := None;
     u_grader_decision := Some d; u_route_target := None |}.

(** The update [graph.stream] starts a turn with. *)
Definition input_update (input_message : string) : Update :=
  {| u_messages := Some (NewMessages [HumanMessage input_message]);
     u_plan := None; u_current_step_index := None;
     u_research_outputs := None;
     u_execution_history := None; u_user_validated := None;
     u_grader_decision := None; u_route_target := None |}.

(** ** Sample inputs *)

Module Sample.

Definition state : GlobalState :=
  {| messages := [HumanMessage "clean the build directory"];
     plan := []; current_step_index := None; research_outputs := None;
     execution_history := None; user_validated := None; file_context := ∅ |}.

Definition with_plan (p : list PlanStep) (i : Z) (st : GlobalState) : GlobalState :=
  {| messages := messages st; plan := p; current_step_index := Some i;
     research_outputs := research_outputs st;
     execution_history := execution_history st;
     user_validated := user_validated st; file_context := file_context st |}.

Definition approved (st : GlobalState) : GlobalState :=
  apply_update st
    {| u_messages := None; u_plan := None; u_current_step_index := None;
       u_research_outputs := None; u_execution_history := None;
       u_user_validated := Some true; u_grader_decision := None;
       u_route_target := None |}.

Definition step (i c : string) : PlanStep :=
  {| id := i; description := "run " +:+ c; command := Str c;
     risk_level := "LOW"; status := "pending"; output := None |}.

(** A step the planner got as [{"command": null, ...}]. *)
Definition thought : PlanStep :=
  {| id := "1"; description := "think it over"; command := PyNone;
     risk_level := "LOW"; status := "pending"; output := None |}.

(** Every process exits with [code] after printing a line on each stream. *)
Definition os_exit (code : Z) : nat -> string -> Z -> Launch :=
  fun _ _ _ => Spawned (Completes code "out" "err").

(** The first process exits with 0, every later one with 1. *)
Definition os_second_fails : nat -> string -> Z -> Launch :=
  fun n _ _ =>
    match n with
    | O => Spawned (Completes 0 "out" EmptyString)
    | _ => Spawned (Completes 1 EmptyString "err")
    end.

(** Every process outlives its timeout, and what it started holds the
    pipes until it is done. *)
Definition os_hang : nat -> string -> Z -> Launch :=
  fun _ _ _ => Spawned (TimeoutExpired (Collected 540 (Some "partial") None)).

(** Every process outlives its timeout, and the [communicate()] that
    follows the kill raises. *)
Definition os_hang_raises : nat -> string -> Z -> Launch :=
  fun _ _ _ =>
    Spawned (TimeoutExpired (CollectRaises 0 (Exc OSError "[Errno 24] Too many open files"))).

Definition llm_const (text : string) : nat -> list Message -> string :=
  fun _ _ => text.

(** [json.loads] on text that does not start a JSON value. *)
Definition json_loads_garbage : string -> result Planner.json :=
  fun _ => Raise (Exc JSONDecodeError "Expecting value: line 1 column 1 (char 0)").

Definition json_dumps_any : list PlanStep -> string := fun _ => "[]".

Definition client_empty : nat -> string -> result (list TavilySearch.Hit) :=
  fun _ _ => Ok [].

End Sample.

(** ** Vocabulary of the further statements *)

(** Two steps that differ at most in their status and their output. *)
Definition same_step (a b : PlanStep) : Prop :=
  id a = id b /\ description a = description b /\
  command a = command b /\ risk_level a = risk_level b.

Definition is_kill (e : Event) : bool :=
  match e with EvKill _ _ => true | _ => false end.

(** An event of the sandbox: a process spawned or killed. *)
Definition of_sandbox (e : Event) : bool := is_popen e || is_kill e.

(** An event of the services: a completion or a search. *)
Definition of_services (e : Event) : bool := is_complete e || is_search e.

(** The log [w'] is the log [w] with events of the kind [p] after it. *)
Definition extends (p : Event -> bool) (w w' : World) : Prop :=
  exists evs, w' = (w ++ evs)%list /\ Forall (fun e => p e = true) evs.

(** What the executor leaves alone: [st'] has the steps of [st], each
    with the id, description, command and risk level it had; the research
    output, the approval flag and the file cache of [st]; and the
    messages and the history of [st] with, at most, more entries after
    them. *)
Definition executor_frame (st st' : GlobalState) : Prop :=
  Forall2 same_step (plan st) (plan st') /\
  research_outputs st' = research_outputs st /\
  user_validated st' = user_validated st /\
  file_context st' = file_context st /\
  messages st `prefix_of` messages st' /\
  default [] (execution_history st) `prefix_of` default [] (execution_history st').

(** What the researcher leaves alone: the plan, the cursor, the history,
    the approval flag and the file cache; the messages and the research
    output of [st] are kept, with at most more entries after them. *)
Definition researcher_frame (st st' : GlobalState) : Prop :=
  plan st' = plan st /\
  current_step_index st' = current_step_index st /\
  execution_history st' = execution_history st /\
  user_validated st' = user_validated st /\
  file_context st' = file_context st /\
  messages st `prefix_of` messages st' /\
  default [] (research_outputs st) `prefix_of` default [] (research_outputs st').

(** The line [error_handler] writes for the cursor [idx]. *)
Definition failure_notice (idx : Z) : Message :=
  SystemMessage ("Execution failed at step " +:+ str_of_int (idx + 1) +:+ ".").

(** The record [terminal_runner] logs for a command it ran. *)
Definition history_record (step : PlanStep) (c : string) (rc : Z) (out err : string)
  : HistoryItem :=
  {| h_step_id := Some (id step); h_command := Some c;
     h_return_code := Some rc; h_output := out +:+ nl +:+ err |}.

(** The text [draft_plan] hands to [json.loads]. *)
Definition cleaned (response : string) : string :=
  strip (replace Planner.fence EmptyString
           (replace (Planner.fence +:+ "json") EmptyString response)).

(** The messages [draft_plan] sends to the completion service. *)
Definition planner_request (PLANNER_PROMPT : string) (st : GlobalState) : list Message :=
  ([SystemMessage PLANNER_PROMPT] ++ messages st ++
   [HumanMessage "Generate a plan for the above request."])%list.

(** The messages [plan_refiner] sends to the completion service when the
    last message of the thread is [last]. *)
Definition refiner_request (PLANNER_PROMPT : string)
  (json_dumps : list PlanStep -> string) (st : GlobalState) (last : Message)
  : list Message :=
  [SystemMessage PLANNER_PROMPT;
   HumanMessage
     (nl +:+ "    The user rejected the previous plan. " +:+ nl +:+
      "    Current Plan: " +:+ json_dumps (plan st) +:+ nl +:+
      "    User Feedback: " +:+ content last +:+ nl +:+
      "    " +:+ nl +:+
      "    Update the plan accordingly. Return the full updated JSON array." +:+ nl +:+
      "    ")].

(** A JSON value that is [null], a boolean or a number. *)
Definition scalar (v : Planner.json) : Prop :=
  match v with
  | Planner.JNull | Planner.JBool _ | Planner.JNumber _ => True
  | _ => False
  end.

(** The update [{"_route_target": target}]. *)
Definition route_update (target : string) : Update :=
  {| u_messages := None; u_plan := None; u_current_step_index := None;
     u_research_outputs := None; u_execution_history := None;
     u_user_validated := None; u_grader_decision := None;
     u_route_target := Some target |}.

(** The state after [graph.update_state(config, {"user_validated": True})]. *)
Definition validated (st : GlobalState) : GlobalState :=
  apply_update st
    {| u_messages := None; u_plan := None; u_current_step_index := None;
       u_research_outputs := None; u_execution_history := None;
       u_user_validated := Some true; u_grader_decision := None;
       u_route_target := None |}.

(** ** Further sample inputs *)

Module More.

(** [json.loads] on the text [[{"id": "1", "description": "list",
    "command": "ls", "risk_level": "LOW"}]]. *)
Definition one_step_json : Planner.json :=
  Planner.JArray
    [Planner.JObject
       [("id", Planner.JString "1"); ("description", Planner.JString "list");
        ("command", Planner.JString "ls"); ("risk_level", Planner.JString "LOW")]].

Definition json_loads_one_step : string -> result Planner.json :=
  fun _ => Ok one_step_json.

(** [json.loads] on the text [[null]]. *)
Definition json_loads_null_step : string -> result Planner.json :=
  fun _ => Ok (Planner.JArray [Planner.JNull]).

(** A step that carries the status failed before it is run. *)
Definition stale (i c : string) : PlanStep :=
  {| id := i; description := "run " +:+ c; command := Str c;
     risk_level := "LOW"; status := "failed"; output := None |}.

(** A thread that holds the research output of an earlier turn. *)
Definition researched : GlobalState :=
  apply_update Sample.state (outputs_update ["Query: q" +:+ nl +:+ "Result: r"]).

(** The search service finds one page. *)
Definition client_one : nat -> string -> result (list TavilySearch.Hit) :=
  fun _ _ => Ok [{| TavilySearch.title := Some "Rocq";
                    TavilySearch.url := Some "https://rocq-prover.org";
                    TavilySearch.hit_content := None |}].

(** A run of the main graph that stopped before the executor with the
    plan [p]. *)
Definition paused (p : list PlanStep) : Graph.Run Main.Node :=
  {| Graph.halt := Graph.Interrupted Main.executor_;
     Graph.final := Sample.with_plan p 0 Sample.state;
     Graph.world := [];
     Graph.visits := [] |}.

End More.

(** * Proofs *)

(** ** Strings *)

Lemma str_map_app f a b : str_map f (a +:+ b) = str_map f a +:+ str_map f b.
Proof. induction a as [|c a IH]; simpl; [reflexivity | now rewrite IH]. Qed.

Lemma lower_app a b : lower (a +:+ b) = lower a +:+ lower b.
Proof. apply str_map_app. Qed.

Lemma prefix_app p s : String.prefix p (p +:+ s) = true.
Proof.
  induction p as [|c p IH]; simpl.
  - now destruct s.
  - destruct (ascii_dec c c) as [_|ne]; [exact IH | now destruct ne].
Qed.

Lemma contains_prefix p s : String.prefix p s = true -> contains p s = true.
Proof. intros H. destruct s; cbn [contains]; rewrite H; reflexivity. Qed.

Lemma contains_app_r p a s : contains p s = true -> contains p (a +:+ s) = true.
Proof.
  intros H. induction a as [|c a IH]; [exact H |].
  change (String c a +:+ s) with (String c (a +:+ s)).
  cbn [contains]. rewrite IH. apply orb_true_r.
Qed.

Lemma contains_middle p a b : contains p (a +:+ p +:+ b) = true.
Proof. apply contains_app_r, contains_prefix, prefix_app. Qed.

Lemma blocked_mentions pattern command :
  In pattern SafeSubprocess.forbidden_patterns ->
  mentions pattern command ->
  SafeSubprocess.blocked command = true.
Proof.
  intros Hin (pre & v & post & -> & Hv).
  unfold SafeSubprocess.blocked. apply existsb_exists.
  exists pattern. split; [exact Hin |].
  rewrite !lower_app, Hv. apply contains_middle.
Qed.

(** ** The command sandbox *)

(** C8.  A command that holds one of the patterns of the denylist, in any
    casing and with any text (white space included) around it, makes
    [SafeSubprocess.run] return exit code -1, an empty standard output and
    the security-block message, and the log of the outside world is the
    one it was called with: no process was spawned. *)
Theorem run_blocks_denylisted os self command timeout w pattern :
  In pattern SafeSubprocess.forbidden_patterns ->
  mentions pattern command ->
  SafeSubprocess.run os self command timeout w =
    ((-1, EmptyString,
      "CRITICAL SECURITY: Command blocked by SafeSubprocess: " +:+ command), w).
Proof.
  intros Hin Hm. unfold SafeSubprocess.run.
  now rewrite (blocked_mentions pattern command Hin Hm).
Qed.

Lemma run_blocks_denylisted_witness :
  SafeSubprocess.run (Sample.os_exit 0) SafeSubprocess.init
    "  sudo RM -Rf / --no-preserve-root  " None [] =
    ((-1, EmptyString,
      "CRITICAL SECURITY: Command blocked by SafeSubprocess: " +:+
      "  sudo RM -Rf / --no-preserve-root  "), []).
Proof.
  apply (run_blocks_denylisted _ _ _ _ _ "rm -rf /").
  - simpl. left. reflexivity.
  - exists "  sudo ", "RM -Rf /", " --no-preserve-root  ". split; reflexivity.
Defined.




(** ** Indexing *)

Lemma position_lt {A} (l : list A) i n : position l i = Ok n -> (n < length l)%nat.
Proof.
  unfold position, len. intros H.
  destruct ((0 <=? i) && (i <? Z.of_nat (length l))) eqn:E1.
  - inversion H; subst. apply andb_true_iff in E1 as [? ?]. lia.
  - destruct ((i <? 0) && (- Z.of_nat (length l) <=? i)) eqn:E2; [|discriminate].
    inversion H; subst. apply andb_true_iff in E2 as [? ?]. lia.
Qed.

Lemma position_nonneg {A} (l : list A) i :
  0 <= i < len l -> position l i = Ok (Z.to_nat i).
Proof.
  intros [H0 H1]. unfold position.
  destruct (0 <=? i) eqn:E0; [|lia]. destruct (i <? len l) eqn:E1; [|lia].
  reflexivity.
Qed.

Lemma position_past_end {A} (l : list A) i :
  len l <= i -> position l i = Raise (Exc IndexError "list index out of range").
Proof.
  intros H. unfold position. unfold len in *.
  destruct (i <? Z.of_nat (length l)) eqn:E1; [lia|].
  destruct (i <? 0) eqn:E2; [lia|].
  rewrite andb_false_r. reflexivity.
Qed.

Lemma position_insert {A} (l : list A) i n x :
  position (<[n := x]> l) i = position l i.
Proof. unfold position, len. now rewrite length_insert. Qed.

Lemma getitem_position {A} (l : list A) i x :
  getitem l i = Ok x -> exists n, position l i = Ok n /\ l !! n = Some x.
Proof.
  unfold getitem. destruct (position l i) as [n|e] eqn:E; simpl; [|discriminate].
  destruct (l !! n) eqn:El; [|discriminate].
  intros H; inversion H; subst. eauto.
Qed.

Lemma getitem_of_position {A} (l : list A) i n x :
  position l i = Ok n -> l !! n = Some x -> getitem l i = Ok x.
Proof. intros Hp Hl. unfold getitem. rewrite Hp. simpl. now rewrite Hl. Qed.

Lemma setitem_position {A} (l : list A) i n x :
  position l i = Ok n -> setitem l i x = Ok (<[n := x]> l).
Proof. intros Hp. unfold setitem. now rewrite Hp. Qed.

Lemma getitem_insert {A} (l : list A) i n x :
  position l i = Ok n -> getitem (<[n := x]> l) i = Ok x.
Proof.
  intros Hp. apply (getitem_of_position _ _ n).
  - now rewrite position_insert.
  - apply list_lookup_insert_eq. now apply position_lt in Hp.
Qed.

Lemma getitem_past_end {A} (l : list A) i :
  len l <= i -> getitem l i = Raise (Exc IndexError "list index out of range").
Proof. intros H. unfold getitem. now rewrite position_past_end. Qed.

Lemma len_insert {A} (l : list A) n x : len (<[n := x]> l) = len l.
Proof. unfold len. now rewrite length_insert. Qed.

(** ** Merging updates *)

Lemma apply_no_update st : apply_update st no_update = st.
Proof. now destruct st. Qed.

Lemma apply_same_plan st :
  apply_update st
    {| u_messages := None; u_plan := Some (plan st); u_current_step_index := None;
       u_research_outputs := None; u_execution_history := None;
       u_user_validated := None; u_grader_decision := None;
       u_route_target := None |} = st.
Proof. now destruct st. Qed.

Lemma apply_same_index st idx :
  current_step_index st = Some idx ->
  apply_update st
    {| u_messages := None; u_plan := None; u_current_step_index := Some idx;
       u_research_outputs := None; u_execution_history := None;
       u_user_validated := None; u_grader_decision := None;
       u_route_target := None |} = st.
Proof. destruct st; simpl. now intros ->. Qed.

(** ** One step of the engine *)

Section EngineSteps.
Context {Node : Type}.
Variable invoke : Node -> GlobalState -> World -> option (result (GlobalState * World)).
Variable edge : Node -> Graph.Edge Node.
Variable interrupt_before : Node -> bool.

Local Abbreviation run := (Graph.run invoke edge interrupt_before).

Lemma run_node_raises k resumed n st w e :
  interrupt_before n && negb resumed = false ->
  invoke n st w = Some (Raise e) ->
  run (S k) resumed n st w =
    {| Graph.halt := Graph.Raised e n; Graph.final := st; Graph.world := w;
       Graph.visits := [Graph.Build_Visit n st st] |}.
Proof. intros Hi Hn. simpl. now rewrite Hi, Hn. Qed.

Lemma run_edge_raises k resumed n st w st' w' e :
  interrupt_before n && negb resumed = false ->
  invoke n st w = Some (Ok (st', w')) ->
  Graph.follow edge n st' = Raise e ->
  run (S k) resumed n st w =
    {| Graph.halt := Graph.Raised e n; Graph.final := st; Graph.world := w';
       Graph.visits := [Graph.Build_Visit n st st'] |}.
Proof. intros Hi Hn He. simpl. now rewrite Hi, Hn, He. Qed.

Lemma run_ends k resumed n st w st' w' :
  interrupt_before n && negb resumed = false ->
  invoke n st w = Some (Ok (st', w')) ->
  Graph.follow edge n st' = Ok None ->
  run (S k) resumed n st w =
    {| Graph.halt := Graph.Ended; Graph.final := st'; Graph.world := w';
       Graph.visits := [Graph.Build_Visit n st st'] |}.
Proof. intros Hi Hn He. simpl. now rewrite Hi, Hn, He. Qed.

Lemma run_goes_on k resumed n st w st' w' m :
  interrupt_before n && negb resumed = false ->
  invoke n st w = Some (Ok (st', w')) ->
  Graph.follow edge n st' = Ok (Some m) ->
  run (S k) resumed n st w =
    let r := run k false m st' w' in
    {| Graph.halt := Graph.halt r; Graph.final := Graph.final r;
       Graph.world := Graph.world r;
       Graph.visits := Graph.Build_Visit n st st' :: Graph.visits r |}.
Proof. intros Hi Hn He. simpl. now rewrite Hi, Hn, He. Qed.

Lemma run_interrupted k n st w :
  interrupt_before n = true ->
  run (S k) false n st w =
    {| Graph.halt := Graph.Interrupted n; Graph.final := st; Graph.world := w;
       Graph.visits := [] |}.
Proof. intros Hi. simpl. now rewrite Hi. Qed.
End EngineSteps.

(** ** The nodes of the executor *)

Lemma falsy_not_empty c : c <> EmptyString -> falsy (Some c) = false.
Proof. intros H. simpl. now apply String.eqb_neq. Qed.

(** C6.  When the step under the cursor has a command, the sandbox runs it
    and reports a nonzero exit code, [terminal_runner] returns an update
    after which the step has status failed and holds the combined output,
    [execution_history] has one more record (step id, command, exit code,
    combined output) at its end, and [current_step_index] is what it was:
    the update has no such key. *)
Theorem terminal_runner_nonzero_exit os st w idx step c rc out err w' :
  current_step_index st = Some idx ->
  getitem (plan st) idx = Ok step ->
  get_command step = Some c ->
  c <> EmptyString ->
  SafeSubprocess.run os Executor.safe_runner c None w = ((rc, out, err), w') ->
  rc <> 0 ->
  exists u,
    Executor.terminal_runner os st w = Ok (u, w') /\
    let st' := apply_update st u in
    let output := out +:+ nl +:+ err in
    status_at st' idx = Some "failed" /\
    getitem (plan st') idx =
      Ok {| id := id step; description := description step;
            command := command step; risk_level := risk_level step;
            status := "failed"; output := Some output |} /\
    execution_history st' =
      Some (default [] (execution_history st) ++
            [{| h_step_id := Some (id step); h_command := Some c;
                h_return_code := Some rc; h_output := output |}])%list /\
    u_current_step_index u = None /\
    current_step_index st' = Some idx.
Proof.
  intros Hidx Hget Hcmd Hne Hrun Hrc.
  destruct (getitem_position _ _ _ Hget) as (n & Hpos & Hn).
  unfold Executor.terminal_runner. rewrite Hidx. simpl.
  rewrite Hget. simpl. rewrite Hcmd, (falsy_not_empty c Hne).
  simpl or_empty. rewrite Hrun.
  destruct (rc =? 0) eqn:E; [lia|].
  rewrite (setitem_position _ _ n _ Hpos). simpl.
  eexists. split; [reflexivity|]. simpl.
  unfold status_at. simpl. rewrite (getitem_insert _ _ _ _ Hpos).
  repeat split; try reflexivity. exact Hidx.
Qed.

Lemma terminal_runner_nonzero_exit_witness :
  exists u,
    Executor.terminal_runner (Sample.os_exit 2)
      (Sample.with_plan [Sample.step "1" "make"] 0 Sample.state) [] =
      Ok (u, [EvPopen "make"]) /\
    let st' := apply_update (Sample.with_plan [Sample.step "1" "make"] 0 Sample.state) u in
    let output := "out" +:+ nl +:+ "err" in
    status_at st' 0 = Some "failed" /\
    getitem (plan st') 0 =
      Ok {| id := "1"; description := "run make"; command := Str "make";
            risk_level := "LOW"; status := "failed"; output := Some output |} /\
    execution_history st' =
      Some ([] ++
            [{| h_step_id := Some "1"; h_command := Some "make";
                h_return_code := Some 2; h_output := output |}])%list /\
    u_current_step_index u = None /\
    current_step_index st' = Some 0.
Proof.
  apply (terminal_runner_nonzero_exit (Sample.os_exit 2)
           (Sample.with_plan [Sample.step "1" "make"] 0 Sample.state) []
           0 (Sample.step "1" "make") "make" 2 "out" "err" [EvPopen "make"]);
    try reflexivity; [discriminate | lia].
Defined.

(** The record [terminal_runner] logs for a step it skips. *)
Lemma terminal_runner_skips os st w idx step :
  current_step_index st = Some idx ->
  getitem (plan st) idx = Ok step ->
  falsy (get_command step) = true ->
  exists n,
    position (plan st) idx = Ok n /\
    Executor.terminal_runner os st w =
      Ok ({| u_messages := None;
             u_plan := Some (<[n := set_output "(No command executed)"
                                       (set_status "done" step)]> (plan st));
             u_current_step_index := Some (idx + 1);
             u_research_outputs := None;
             u_execution_history :=
               Some (default [] (execution_history st) ++
                     [{| h_step_id := None; h_command := None;
                         h_return_code := None;
                         h_output := "Skipped (no command)" |}])%list;
             u_user_validated := None; u_grader_decision := None;
             u_route_target := None |}, w).
Proof.
  intros Hidx Hget Hf.
  destruct (getitem_position _ _ _ Hget) as (n & Hpos & Hn).
  exists n. split; [exact Hpos|].
  unfold Executor.terminal_runner. rewrite Hidx. simpl.
  rewrite Hget. simpl. rewrite Hf.
  rewrite (setitem_position _ _ n _ Hpos). reflexivity.
Qed.

(** C7, as the code has it.  When the step under the cursor has no
    command (the key is missing, or holds [None] or the empty string),
    [terminal_runner] spawns nothing and returns an update after which the
    step has status done and the output "(No command executed)",
    [current_step_index] is one more than it was, and [execution_history]
    has one more record at its end: its command is [None], its output is
    "Skipped (no command)", and it has neither a step id nor an exit
    code. *)
Theorem terminal_runner_null_command os st w idx step :
  current_step_index st = Some idx ->
  getitem (plan st) idx = Ok step ->
  falsy (get_command step) = true ->
  exists u,
    Executor.terminal_runner os st w = Ok (u, w) /\
    let st' := apply_update st u in
    getitem (plan st') idx =
      Ok {| id := id step; description := description step;
            command := command step; risk_level := risk_level step;
            status := "done"; output := Some "(No command executed)" |} /\
    status_at st' idx = Some "done" /\
    current_step_index st' = Some (idx + 1) /\
    execution_history st' =
      Some (default [] (execution_history st) ++
            [{| h_step_id := None; h_command := None; h_return_code := None;
                h_output := "Skipped (no command)" |}])%list.
Proof.
  intros Hidx Hget Hf.
  destruct (terminal_runner_skips os st w idx step Hidx Hget Hf) as (n & Hpos & ->).
  eexists. split; [reflexivity|]. simpl.
  unfold status_at. simpl. rewrite (getitem_insert _ _ _ _ Hpos). repeat split.
Qed.

Lemma terminal_runner_null_command_witness :
  exists u,
    Executor.terminal_runner (Sample.os_exit 0)
      (Sample.with_plan [Sample.thought] 0 Sample.state) [] = Ok (u, []) /\
    let st' := apply_update (Sample.with_plan [Sample.thought] 0 Sample.state) u in
    getitem (plan st') 0 =
      Ok {| id := "1"; description := "think it over"; command := PyNone;
            risk_level := "LOW"; status := "done";
            output := Some "(No command executed)" |} /\
    status_at st' 0 = Some "done" /\
    current_step_index st' = Some (0 + 1) /\
    execution_history st' =
      Some ([] ++
            [{| h_step_id := None; h_command := None; h_return_code := None;
                h_output := "Skipped (no command)" |}])%list.
Proof.
  apply (terminal_runner_null_command (Sample.os_exit 0)
           (Sample.with_plan [Sample.thought] 0 Sample.state) [] 0 Sample.thought);
    reflexivity.
Defined.

(** C7, as the claim has it, fails on a plan of one step whose command is
    [None]: no record that [terminal_runner] appends carries the id of the
    step together with an exit code, and the output stored on the step is
    not the lower-case text of the claim. *)
Lemma terminal_runner_skip_record_counterexample :
  ~ (exists u w',
       Executor.terminal_runner (Sample.os_exit 0)
         (Sample.with_plan [Sample.thought] 0 Sample.state) [] = Ok (u, w') /\
       let st' := apply_update (Sample.with_plan [Sample.thought] 0 Sample.state) u in
       (exists step, getitem (plan st') 0 = Ok step /\
          status step = "done" /\ output step = Some "(no command executed)") /\
       current_step_index st' = Some 1 /\
       (exists item, last (default [] (execution_history st')) = Some item /\
          h_step_id item = Some (id Sample.thought) /\
          h_command item = None /\
          is_Some (h_return_code item))).
Proof.
  intros (u & w' & Hrun & _ & _ & item & Hlast & Hid & _).
  vm_compute in Hrun. inversion Hrun; subst; clear Hrun.
  vm_compute in Hlast. inversion Hlast; subst. discriminate Hid.
Qed.

(** What [safety_guard] does when it returns: the state is left as it
    was, also when the command holds "rm -rf /" and also when
    [user_validated] is false or missing. *)
Lemma safety_guard_returns st idx step :
  current_step_index st = Some idx ->
  getitem (plan st) idx = Ok step ->
  command step <> PyNone ->
  exists u, Executor.safety_guard st = Ok u /\ apply_update st u = st.
Proof.
  intros Hidx Hget Hc. unfold Executor.safety_guard.
  rewrite Hidx. simpl. rewrite Hget. simpl.
  unfold get_command_or. destruct (command step) as [| |c]; try congruence; simpl.
  - exists no_update. split; [reflexivity | apply apply_no_update].
  - destruct (contains "rm -rf /" c); eexists; (split; [reflexivity|]).
    + apply apply_same_plan.
    + apply apply_no_update.
Qed.

Lemma safety_guard_none st idx step :
  current_step_index st = Some idx ->
  getitem (plan st) idx = Ok step ->
  command step = PyNone ->
  Executor.safety_guard st =
    Raise (Exc TypeError "argument of type 'NoneType' is not iterable").
Proof.
  intros Hidx Hget Hc. unfold Executor.safety_guard.
  rewrite Hidx. simpl. rewrite Hget. simpl.
  unfold get_command_or. now rewrite Hc.
Qed.

(** C10, at a plan of one step whose command is [None], approved by the
    user: [safety_guard] raises TypeError at the test for "rm -rf /", the
    run of the graph ends there, [terminal_runner] is not entered; entered
    on the state [safety_guard] was given, [terminal_runner] skips the
    step and returns. *)
Theorem safety_guard_null_command_raises :
  let st := Sample.with_plan [Sample.thought] 0 (Sample.approved Sample.state) in
  let r := Executor.run (Sample.os_exit 0) 5 st [] in
  Graph.halt r =
    Graph.Raised (Exc TypeError "argument of type 'NoneType' is not iterable")
      Executor.safety_guard_ /\
  map Graph.at_node (Graph.visits r) = [Executor.step_parser_; Executor.safety_guard_] /\
  Executor.edge Executor.safety_guard_ = Graph.Goto Executor.terminal_runner_ /\
  exists u, Executor.terminal_runner (Sample.os_exit 0) (Graph.final r) [] = Ok (u, []) /\
            current_step_index (apply_update (Graph.final r) u) = Some 1.
Proof.
  repeat split. eexists. split; reflexivity.
Qed.

(** ** Runs of the executor *)

Import Graph.
Local Abbreviation sp := Executor.step_parser_.
Local Abbreviation sg := Executor.safety_guard_.
Local Abbreviation tr := Executor.terminal_runner_.
Local Abbreviation eh := Executor.error_handler_.

Lemma step_parser_in_range st i :
  current_step_index st = Some i ->
  0 <= i < len (plan st) ->
  exists step,
    plan st !! Z.to_nat i = Some step /\
    Executor.step_parser st =
      Ok {| u_messages := None;
            u_plan := Some (<[Z.to_nat i := set_status "in_progress" step]> (plan st));
            u_current_step_index := None;
            u_research_outputs := None; u_execution_history := None;
            u_user_validated := None; u_grader_decision := None;
            u_route_target := None |}.
Proof.
  intros Hi Hr. unfold Executor.step_parser. rewrite Hi. simpl.
  destruct (len (plan st) <=? i) eqn:E; [lia|].
  pose proof (position_nonneg (plan st) i Hr) as Hp.
  destruct (plan st !! Z.to_nat i) as [step|] eqn:El.
  2: { apply lookup_ge_None in El. unfold len in Hr. lia. }
  exists step. split; [reflexivity|].
  rewrite (getitem_of_position _ _ _ _ Hp El). simpl.
  rewrite (setitem_position _ _ _ _ Hp). reflexivity.
Qed.

Lemma terminal_runner_cases os st w i n step :
  current_step_index st = Some i ->
  position (plan st) i = Ok n ->
  plan st !! n = Some step ->
  exists u w' o,
    Executor.terminal_runner os st w = Ok (u, w') /\
    ((u_current_step_index u = Some (i + 1) /\
      u_plan u = Some (<[n := set_output o (set_status "done" step)]> (plan st)))
     \/
     (u_current_step_index u = None /\
      u_plan u = Some (<[n := set_output o (set_status "failed" step)]> (plan st)))).
Proof.
  intros Hi Hp Hl.
  pose proof (getitem_of_position _ _ _ _ Hp Hl) as Hget.
  unfold Executor.terminal_runner. rewrite Hi. simpl. rewrite Hget. simpl.
  destruct (falsy (get_command step)).
  - rewrite (setitem_position _ _ _ _ Hp). simpl.
    do 3 eexists. split; [reflexivity|]. left. split; reflexivity.
  - destruct (SafeSubprocess.run os Executor.safe_runner
                (or_empty (get_command step)) None w) as [[[rc out] err] w'].
    destruct (rc =? 0); rewrite (setitem_position _ _ _ _ Hp); simpl;
      do 3 eexists; (split; [reflexivity|]); [left | right]; split; reflexivity.
Qed.

Lemma follow_sp st : Graph.follow Executor.edge sp st = Ok (Some sg).
Proof. reflexivity. Qed.
Lemma follow_sg st : Graph.follow Executor.edge sg st = Ok (Some tr).
Proof. reflexivity. Qed.
Lemma follow_eh st : Graph.follow Executor.edge eh st = Ok None.
Proof. reflexivity. Qed.

Lemma follow_tr_failed st i step :
  current_step_index st = Some i ->
  getitem (plan st) i = Ok step ->
  status step = "failed" ->
  Graph.follow Executor.edge tr st = Ok (Some eh).
Proof.
  intros Hi Hg Hs. unfold Graph.follow. simpl.
  unfold Executor.check_execution_result. rewrite Hi. simpl. rewrite Hg. simpl.
  rewrite Hs. reflexivity.
Qed.

Lemma follow_tr_cases st i :
  current_step_index st = Some i ->
  0 <= i ->
  (len (plan st) <= i /\ exists e, Graph.follow Executor.edge tr st = Raise e) \/
  (i < len (plan st) /\
   (Graph.follow Executor.edge tr st = Ok (Some eh) \/
    Graph.follow Executor.edge tr st = Ok (Some sp))).
Proof.
  intros Hi H0. unfold Graph.follow. simpl.
  unfold Executor.check_execution_result. rewrite Hi. simpl.
  destruct (Z_lt_le_dec i (len (plan st))) as [Hlt|Hge].
  - right. split; [exact Hlt|].
    assert (Hp := position_nonneg (plan st) i (conj H0 Hlt)).
    destruct (plan st !! Z.to_nat i) as [s|] eqn:El.
    2: { apply lookup_ge_None in El. unfold len in Hlt. lia. }
    rewrite (getitem_of_position _ _ _ _ Hp El). simpl.
    destruct (String.eqb (status s) "failed"); [left; reflexivity|].
    right. destruct (len (plan st) <=? i); reflexivity.
  - left. split; [exact Hge|]. rewrite (getitem_past_end _ _ Hge). simpl. eauto.
Qed.

Lemma error_handler_returns st i :
  current_step_index st = Some i ->
  exists u, Executor.error_handler st = Ok u /\
            current_step_index (apply_update st u) = Some i /\
            plan (apply_update st u) = plan st.
Proof.
  intros Hi. unfold Executor.error_handler. rewrite Hi. simpl.
  eexists. split; [reflexivity|]. simpl. rewrite Hi. split; reflexivity.
Qed.

Lemma run_iteration os st w i k :
  current_step_index st = Some i ->
  0 <= i < len (plan st) ->
  let r := Executor.run os (S (S (S (S k)))) st w in
  exists st1,
    current_step_index st1 = Some i /\ len (plan st1) = len (plan st) /\
    let v1 := Build_Visit sp st st1 in
    let v2 := Build_Visit sg st1 st1 in
    ((exists e, r = {| halt := Raised e sg; final := st1; world := w; visits := [v1; v2] |})
     \/
     exists st2 w2,
       len (plan st2) = len (plan st) /\
       let v3 := Build_Visit tr st1 st2 in
       ((status_at st2 i = Some "failed" /\ current_step_index st2 = Some i /\
         exists st3, current_step_index st3 = Some i /\
           r = {| halt := Ended; final := st3; world := w2;
                  visits := [v1; v2; v3; Build_Visit eh st2 st3] |})
        \/
        (status_at st2 i = Some "done" /\ current_step_index st2 = Some (i + 1) /\
         ((exists e, r = {| halt := Raised e tr; final := st1; world := w2;
                            visits := [v1; v2; v3] |})
          \/
          (exists st3, current_step_index st3 = Some (i + 1) /\
             r = {| halt := Ended; final := st3; world := w2;
                    visits := [v1; v2; v3; Build_Visit eh st2 st3] |})
          \/
          (i + 1 < len (plan st) /\
           let r' := Executor.run os (S k) st2 w2 in
           r = {| halt := halt r'; final := final r'; world := world r';
                  visits := v1 :: v2 :: v3 :: visits r' |}))))).
Proof.
  intros Hi Hr r.
  destruct (step_parser_in_range st i Hi Hr) as (step & Hl & Hsp).
  set (n := Z.to_nat i) in *.
  set (step1 := set_status "in_progress" step) in *.
  set (st1 := apply_update st (plan_update (<[n := step1]> (plan st)))).
  assert (Hp : position (plan st) i = Ok n) by now apply position_nonneg.
  assert (Hi1 : current_step_index st1 = Some i) by exact Hi.
  assert (Hp1 : position (plan st1) i = Ok n) by (simpl; now rewrite position_insert).
  assert (Hl1 : plan st1 !! n = Some step1).
  { simpl. apply list_lookup_insert_eq. now apply position_lt in Hp. }
  assert (Hg1 : getitem (plan st1) i = Ok step1) by now apply (getitem_of_position _ _ n).
  exists st1. split; [exact Hi1|]. split; [simpl; apply len_insert|].
  intros v1 v2.
  assert (Hrun1 : r = let r1 := Graph.run (Executor.invoke os) Executor.edge (fun _ => false)
                                  (S (S (S k))) false sg st1 w in
                      {| halt := halt r1; final := final r1; world := world r1;
                         visits := v1 :: visits r1 |}).
  { subst r. unfold Executor.run, Executor.entry_point.
    apply run_goes_on; [reflexivity | | reflexivity].
    simpl. unfold Graph.plain. rewrite Hsp. reflexivity. }
  assert (Hdec : command step1 = PyNone \/ command step1 <> PyNone)
    by (destruct (command step1); [right | left | right]; congruence).
  destruct Hdec as [Hnone|Hsome].
  { left. eexists. rewrite Hrun1.
    erewrite run_node_raises; [reflexivity | reflexivity |].
    simpl Executor.invoke. unfold Graph.plain.
    rewrite (safety_guard_none st1 i step1 Hi1 Hg1 Hnone). reflexivity. }
  right.
  destruct (safety_guard_returns st1 i step1 Hi1 Hg1 Hsome) as (u2 & Hsg & Hst1).
  destruct (terminal_runner_cases os st1 w i n step1 Hi1 Hp1 Hl1)
    as (u3 & w2 & o & Htr & Hcases).
  set (st2 := apply_update st1 u3).
  exists st2, w2.
  assert (Hrun2 : r = let r2 := Graph.run (Executor.invoke os) Executor.edge (fun _ => false)
                                  (S (S k)) false tr st1 w in
                      {| halt := halt r2; final := final r2; world := world r2;
                         visits := v1 :: v2 :: visits r2 |}).
  { rewrite Hrun1.
    erewrite run_goes_on with (m := tr) (st' := st1) (w' := w);
      [reflexivity | reflexivity | | reflexivity].
    simpl Executor.invoke. unfold Graph.plain. rewrite Hsg. simpl. now rewrite Hst1. }
  assert (Hinv : Executor.invoke os tr st1 w = Some (Ok (st2, w2))).
  { simpl. unfold Graph.effectful. rewrite Htr. reflexivity. }
  destruct Hcases as [[Hidx Hplan]|[Hidx Hplan]].
  - (* done *)
    assert (Hpl2 : plan st2 = <[n := set_output o (set_status "done" step1)]> (plan st1)).
    { subst st2. unfold apply_update. simpl. rewrite Hplan. reflexivity. }
    assert (Hi2 : current_step_index st2 = Some (i + 1)).
    { subst st2. unfold apply_update. simpl. rewrite Hidx. reflexivity. }
    assert (Hlen2 : len (plan st2) = len (plan st)).
    { rewrite Hpl2. rewrite len_insert. simpl. apply len_insert. }
    split; [exact Hlen2|]. intros v3. right.
    split.
    { unfold status_at. rewrite Hpl2. rewrite (getitem_insert _ _ _ _ Hp1). reflexivity. }
    split; [exact Hi2|].
    destruct (follow_tr_cases st2 (i + 1) Hi2) as [[Hge [e He]]|[Hlt [He|He]]]; [lia| | |].
    + left. exists e. rewrite Hrun2.
      erewrite run_edge_raises; [reflexivity | reflexivity | exact Hinv | exact He].
    + right. left.
      destruct (error_handler_returns st2 (i + 1) Hi2) as (u4 & Heh & Hi3 & _).
      exists (apply_update st2 u4). split; [exact Hi3|].
      rewrite Hrun2.
      erewrite run_goes_on; [| reflexivity | exact Hinv | exact He].
      erewrite run_ends; [reflexivity | reflexivity | | reflexivity].
      simpl. unfold Graph.plain. rewrite Heh. reflexivity.
    + right. right. split; [lia|]. intros r'.
      rewrite Hrun2.
      erewrite run_goes_on; [| reflexivity | exact Hinv | exact He].
      reflexivity.
  - (* failed *)
    assert (Hpl2 : plan st2 = <[n := set_output o (set_status "failed" step1)]> (plan st1)).
    { subst st2. unfold apply_update. simpl. rewrite Hplan. reflexivity. }
    assert (Hi2 : current_step_index st2 = Some i).
    { subst st2. unfold apply_update. simpl. rewrite Hidx. exact Hi. }
    assert (Hlen2 : len (plan st2) = len (plan st)).
    { rewrite Hpl2. rewrite len_insert. simpl. apply len_insert. }
    split; [exact Hlen2|]. intros v3. left.
    assert (Hg2 : getitem (plan st2) i = Ok (set_output o (set_status "failed" step1))).
    { rewrite Hpl2. apply (getitem_insert _ _ _ _ Hp1). }
    split.
    { unfold status_at. rewrite Hg2. reflexivity. }
    split; [exact Hi2|].
    destruct (error_handler_returns st2 i Hi2) as (u4 & Heh & Hi3 & _).
    exists (apply_update st2 u4). split; [exact Hi3|].
    rewrite Hrun2.
    erewrite run_goes_on;
      [| reflexivity | exact Hinv | exact (follow_tr_failed st2 i _ Hi2 Hg2 eq_refl)].
    erewrite run_ends; [reflexivity | reflexivity | | reflexivity].
    simpl. unfold Graph.plain. rewrite Heh. reflexivity.
Qed.

(** The step [step_parser] takes when the cursor is past the plan. *)
Lemma step_parser_past_end st idx :
  current_step_index st = Some idx ->
  len (plan st) <= idx ->
  exists u, Executor.step_parser st = Ok u /\ apply_update st u = st.
Proof.
  intros Hidx Hlen. unfold Executor.step_parser. rewrite Hidx. simpl.
  destruct (len (plan st) <=? idx) eqn:E; [|lia].
  eexists. split; [reflexivity|]. now apply apply_same_index.
Qed.

Lemma run_past_end os st w idx k :
  current_step_index st = Some idx ->
  len (plan st) <= idx ->
  Executor.run os (S (S k)) st w =
    {| halt := Raised (Exc IndexError "list index out of range") sg;
       final := st; world := w;
       visits := [Build_Visit sp st st; Build_Visit sg st st] |}.
Proof.
  intros Hidx Hlen.
  destruct (step_parser_past_end st idx Hidx Hlen) as (u & Hu & Hst).
  assert (Hg : Executor.safety_guard st =
               Raise (Exc IndexError "list index out of range")).
  { unfold Executor.safety_guard. rewrite Hidx. simpl.
    now rewrite (getitem_past_end _ _ Hlen). }
  unfold Executor.run, Executor.entry_point.
  erewrite run_goes_on with (m := Executor.safety_guard_) (st' := st) (w' := w);
    [| reflexivity | | reflexivity].
  2: { simpl. unfold Graph.plain. rewrite Hu. simpl. now rewrite Hst. }
  erewrite run_node_raises; [| reflexivity |].
  2: { simpl. unfold Graph.plain. now rewrite Hg. }
  reflexivity.
Qed.

Lemma cursor_within_weaken lo lo' hi st :
  lo' <= lo -> cursor_within lo hi st -> cursor_within lo' hi st.
Proof. intros H (i & Hi & Hr). exists i. split; [exact Hi | lia]. Qed.

Lemma cursor_within_intro lo hi st i :
  current_step_index st = Some i -> lo <= i <= hi -> cursor_within lo hi st.
Proof. intros. exists i. auto. Qed.

Lemma cursor_of st i : current_step_index st = Some i -> cursor st = i.
Proof. unfold cursor. now intros ->. Qed.

Ltac not_runner :=
  let H := fresh in intros [H _]; simpl in H; discriminate H.

Ltac other_status Hs Hc :=
  let H := fresh in
  intros [_ H]; simpl in H; rewrite Hc in H; rewrite Hs in H; discriminate H.


Lemma orderly_intro lo hi (r : Run Executor.Node) :
  halted r ->
  Forall (fun v => cursor_within lo hi (before v) /\ cursor_within lo hi (after v))
         (visits r) ->
  cursor_within lo hi (final r) ->
  success_increments (visits r) ->
  failure_routed (visits r) ->
  (Exists (ran_step "failed") (visits r) -> halt r = Ended) ->
  Forall (fun c => lo <= c < hi) (executed (visits r)) ->
  NoDup (executed (visits r)) ->
  orderly lo hi r.
Proof. unfold orderly. tauto. Qed.

Ltac no_failure :=
  let HE := fresh "HE" in
  intros HE;
  repeat (apply Exists_cons in HE as [HE|HE]; [revert HE; not_runner|]);
  inversion HE.

Lemma executor_run_orderly os m : forall st w i f,
  current_step_index st = Some i ->
  0 <= i <= len (plan st) ->
  Z.to_nat (len (plan st) - i) = m ->
  (3 * m + 2 <= f)%nat ->
  orderly i (len (plan st)) (Executor.run os f st w).
Proof.
  induction m as [|m IH]; intros st w i f Hi Hr Hm Hf.
  - assert (Hge : len (plan st) <= i) by lia.
    destruct f as [|[|k]]; try lia.
    rewrite (run_past_end os st w i k Hi Hge).
    assert (Hc : cursor_within i (len (plan st)) st)
      by (apply (cursor_within_intro _ _ _ i); [exact Hi | lia]).
    apply orderly_intro; simpl.
    + right. eauto.
    + repeat (constructor; [split; assumption|]). constructor.
    + exact Hc.
    + repeat (constructor; [not_runner|]). constructor.
    + repeat (split; [not_runner|]). exact I.
    + no_failure.
    + constructor.
    + constructor.
  - assert (Hlt : 0 <= i < len (plan st)) by lia.
    destruct f as [|[|[|[|k]]]]; try lia.
    destruct (run_iteration os st w i k Hi Hlt) as (st1 & Hi1 & Hl1 & Hshape).
    set (L := len (plan st)) in *.
    assert (Hc0 : cursor_within i L st)
      by (apply (cursor_within_intro _ _ _ i); [exact Hi | lia]).
    assert (Hc1 : cursor_within i L st1)
      by (apply (cursor_within_intro _ _ _ i); [exact Hi1 | lia]).
    assert (Hcur1 : cursor st1 = i) by now apply cursor_of.
    simpl in Hshape.
    destruct Hshape
      as [[e ->]|(st2 & w2 & Hl2 & [(Hs & Hi2 & st3 & Hi3 & ->)|(Hs & Hi2 & Hrest)])].
    + (* the guard raised *)
      apply orderly_intro; simpl.
      * right. eauto.
      * repeat (constructor; [split; assumption|]). constructor.
      * exact Hc1.
      * repeat (constructor; [not_runner|]). constructor.
      * repeat (split; [not_runner|]). exact I.
      * no_failure.
      * constructor.
      * constructor.
    + (* the step failed *)
      assert (Hc2 : cursor_within i L st2)
        by (apply (cursor_within_intro _ _ _ i); [exact Hi2 | lia]).
      assert (Hc3 : cursor_within i L st3)
        by (apply (cursor_within_intro _ _ _ i); [exact Hi3 | lia]).
      apply orderly_intro; simpl.
      * left. reflexivity.
      * repeat (constructor; [split; assumption|]). constructor.
      * exact Hc3.
      * repeat (constructor; [first [not_runner | other_status Hs Hcur1]|]). constructor.
      * split; [not_runner|]. split; [not_runner|].
        split; [|split; [not_runner | exact I]].
        intros _. split; [now rewrite Hi2, Hi1|]. eexists. repeat split.
      * reflexivity.
      * rewrite Hcur1. repeat constructor; lia.
      * rewrite Hcur1. repeat constructor. intros HE. inversion HE.
    + (* the step is done *)
      assert (Hc2 : cursor_within i L st2)
        by (apply (cursor_within_intro _ _ _ (i + 1)); [exact Hi2 | lia]).
      assert (Hinc : ran_step "done" (Build_Visit tr st1 st2) ->
                     current_step_index st2 = Some (cursor st1 + 1))
        by (intros _; now rewrite Hcur1).
      destruct Hrest as [[e ->]|[(st3 & Hi3 & ->)|(Hlt' & Hrun)]].
      * apply orderly_intro; simpl.
        -- right. eauto.
        -- repeat (constructor; [split; assumption|]). constructor.
        -- exact Hc1.
        -- repeat (constructor; [first [not_runner | exact Hinc]|]). constructor.
        -- repeat (split; [first [not_runner | other_status Hs Hcur1]|]). exact I.
        -- intros HE.
           repeat (apply Exists_cons in HE as [HE|HE];
                   [revert HE; first [not_runner | other_status Hs Hcur1]|]).
           inversion HE.
        -- rewrite Hcur1. repeat constructor; lia.
        -- rewrite Hcur1. repeat constructor. intros HE. inversion HE.
      * assert (Hc3 : cursor_within i L st3)
          by (apply (cursor_within_intro _ _ _ (i + 1)); [exact Hi3 | lia]).
        apply orderly_intro; simpl.
        -- left. reflexivity.
        -- repeat (constructor; [split; assumption|]). constructor.
        -- exact Hc3.
        -- repeat (constructor; [first [not_runner | exact Hinc]|]). constructor.
        -- repeat (split; [first [not_runner | other_status Hs Hcur1]|]). exact I.
        -- reflexivity.
        -- rewrite Hcur1. repeat constructor; lia.
        -- rewrite Hcur1. repeat constructor. intros HE. inversion HE.
      * simpl in Hrun. rewrite Hrun.
        assert (HIH : orderly (i + 1) (len (plan st2)) (Executor.run os (S k) st2 w2)).
        { apply IH; [exact Hi2 | lia | lia | lia]. }
        rewrite Hl2 in HIH. fold L in HIH.
        destruct HIH as (Hh & Hvs & Hfin & Hsucc & Hfail & Hex & Hbnd & Hnd).
        apply orderly_intro; simpl.
        -- exact Hh.
        -- repeat (constructor; [split; assumption|]).
           eapply Forall_impl; [exact Hvs|].
           intros v [Ha Hb]. split; eapply cursor_within_weaken; eauto; lia.
        -- eapply cursor_within_weaken; [|exact Hfin]. lia.
        -- repeat (constructor; [first [not_runner | exact Hinc]|]). exact Hsucc.
        -- repeat (split; [first [not_runner | other_status Hs Hcur1]|]). exact Hfail.
        -- intros HE.
           repeat (apply Exists_cons in HE as [HE|HE];
                   [revert HE; first [not_runner | other_status Hs Hcur1]|]).
           now apply Hex.
        -- rewrite Hcur1. constructor; [lia|].
           eapply Forall_impl; [exact Hbnd|]. simpl. intros; lia.
        -- rewrite Hcur1. constructor; [|exact Hnd].
           intros HE. rewrite Forall_forall in Hbnd.
           apply Hbnd in HE. lia.
Qed.

(** C2, as the code has it.  Entered with the cursor at or past the end of
    the plan, [step_parser] leaves the state as it was, no step is marked,
    no command runs; the edge that leaves [step_parser] is unconditional,
    [safety_guard] reads [plan[idx]] past the end of the plan, and the run
    ends with the IndexError this raises. *)
Theorem executor_run_past_end os st w idx k :
  current_step_index st = Some idx ->
  len (plan st) <= idx ->
  let r := Executor.run os (S (S k)) st w in
  (exists u, Executor.step_parser st = Ok u /\ apply_update st u = st) /\
  Executor.edge Executor.step_parser_ = Graph.Goto Executor.safety_guard_ /\
  Executor.check_step_completion st = Ok "end" /\
  Graph.halt r =
    Graph.Raised (Exc IndexError "list index out of range") Executor.safety_guard_ /\
  map Graph.at_node (Graph.visits r) = [Executor.step_parser_; Executor.safety_guard_] /\
  Graph.final r = st /\
  Graph.world r = w.
Proof.
  intros Hidx Hlen r.
  split; [now apply (step_parser_past_end st idx)|]. split; [reflexivity|].
  split.
  { unfold Executor.check_step_completion. rewrite Hidx. simpl.
    destruct (len (plan st) <=? idx) eqn:E; [reflexivity | lia]. }
  subst r. rewrite (run_past_end os st w idx k Hidx Hlen). simpl. repeat split.
Qed.

Lemma executor_run_past_end_witness :
  let st := Sample.with_plan [] 0 Sample.state in
  let r := Executor.run (Sample.os_exit 0) 2 st [] in
  (exists u, Executor.step_parser st = Ok u /\ apply_update st u = st) /\
  Executor.edge Executor.step_parser_ = Graph.Goto Executor.safety_guard_ /\
  Executor.check_step_completion st = Ok "end" /\
  Graph.halt r =
    Graph.Raised (Exc IndexError "list index out of range") Executor.safety_guard_ /\
  map Graph.at_node (Graph.visits r) = [Executor.step_parser_; Executor.safety_guard_] /\
  Graph.final r = st /\
  Graph.world r = [].
Proof.
  apply (executor_run_past_end (Sample.os_exit 0) (Sample.with_plan [] 0 Sample.state)
           [] 0 0); [reflexivity | vm_compute; discriminate].
Defined.

(** C1.  A run of the executor graph on a plan, entered with the cursor
    at [idx] between 0 and the length of the plan, comes to an end within
    three node visits for each step and two more: at [END], or at an
    exception (IndexError from the edge after [terminal_runner] once the
    last step is done, TypeError from [safety_guard] at a command that is
    [None]).  All along the run the cursor lies between [idx] and
    [len(plan)]; every step that ends as done moves it on by one; every
    step that ends as failed leaves it where it is, [error_handler] is the
    next and last node entered, and the run ends at [END]; the cursors
    with which [terminal_runner] is entered are indices of the plan and
    no two of them are the same. *)
Theorem executor_run_terminates os st w idx :
  current_step_index st = Some idx ->
  0 <= idx <= len (plan st) ->
  let r := Executor.run os (3 * length (plan st) + 2) st w in
  halted r /\
  Forall (fun v => cursor_within idx (len (plan st)) (before v) /\
                   cursor_within idx (len (plan st)) (after v))
         (visits r) /\
  cursor_within idx (len (plan st)) (final r) /\
  success_increments (visits r) /\
  failure_routed (visits r) /\
  (Exists (ran_step "failed") (visits r) -> halt r = Ended) /\
  Forall (fun c => idx <= c < len (plan st)) (executed (visits r)) /\
  NoDup (executed (visits r)).
Proof.
  intros Hidx Hr r.
  apply (executor_run_orderly os (Z.to_nat (len (plan st) - idx)));
    [exact Hidx | exact Hr | reflexivity |].
  unfold len in *. lia.
Qed.

Lemma executor_run_terminates_witness :
  let st := Sample.with_plan [Sample.step "1" "ls"; Sample.step "2" "make"] 0
              Sample.state in
  let r := Executor.run Sample.os_second_fails
             (3 * length (plan st) + 2) st [] in
  halted r /\
  Forall (fun v => cursor_within 0 (len (plan st)) (before v) /\
                   cursor_within 0 (len (plan st)) (after v))
         (visits r) /\
  cursor_within 0 (len (plan st)) (final r) /\
  success_increments (visits r) /\
  failure_routed (visits r) /\
  (Exists (ran_step "failed") (visits r) -> halt r = Ended) /\
  Forall (fun c => 0 <= c < len (plan st)) (executed (visits r)) /\
  NoDup (executed (visits r)).
Proof.
  apply (executor_run_terminates Sample.os_second_fails
           (Sample.with_plan [Sample.step "1" "ls"; Sample.step "2" "make"] 0
              Sample.state) [] 0).
  - reflexivity.
  - unfold len. simpl. lia.
Defined.

(** The run of the witness: the first step is done, the second fails, and
    [error_handler] ends the run with the cursor on the failed step. *)
Example run_with_failure :
  let st := Sample.with_plan [Sample.step "1" "ls"; Sample.step "2" "make"] 0
              Sample.state in
  let r := Executor.run Sample.os_second_fails 8 st [] in
  halt r = Ended /\
  map at_node (visits r) = [sp; sg; tr; sp; sg; tr; eh] /\
  executed (visits r) = [0; 1] /\
  map status (plan (final r)) = ["done"; "failed"] /\
  current_step_index (final r) = Some 1 /\
  world r = [EvPopen "ls"; EvPopen "make"].
Proof. repeat split. Qed.

(** A run in which every step is done ends at the edge that leaves
    [terminal_runner]: [check_execution_result] reads [plan[2]] of a plan
    of two steps. *)
Example run_without_failure :
  let st := Sample.with_plan [Sample.step "1" "ls"; Sample.step "2" "make"] 0
              Sample.state in
  let r := Executor.run (Sample.os_exit 0) 8 st [] in
  halt r = Raised (Exc IndexError "list index out of range") tr /\
  map at_node (visits r) = [sp; sg; tr; sp; sg; tr] /\
  executed (visits r) = [0; 1] /\
  world r = [EvPopen "ls"; EvPopen "make"].
Proof. repeat split. Qed.

(** Entered with a negative cursor, Python indexing wraps around and the
    last step of the plan runs twice. *)
Example run_from_negative_cursor :
  let st := Sample.with_plan [Sample.step "1" "ls"; Sample.step "2" "make"] (-1)
              Sample.state in
  let r := Executor.run (Sample.os_exit 0) 11 st [] in
  executed (visits r) = [-1; 0; 1] /\
  world r = [EvPopen "make"; EvPopen "ls"; EvPopen "make"].
Proof. repeat split. Qed.

(** ** Runs of the researcher *)

Lemma getitem_last {A} (l : list A) : l <> [] -> exists x, getitem l (-1) = Ok x.
Proof.
  intros Hne.
  assert (Hlen : 1 <= len l).
  { destruct l; [congruence|]. unfold len. simpl length. lia. }
  assert (Hp : position l (-1) = Ok (Z.to_nat (len l + -1))).
  { unfold position. simpl (0 <=? -1). simpl (-1 <? 0).
    destruct (- len l <=? -1) eqn:E; [reflexivity | lia]. }
  destruct (l !! Z.to_nat (len l + -1)) as [x|] eqn:El.
  - exists x. now apply (getitem_of_position _ _ _ _ Hp).
  - apply lookup_ge_None in El. unfold len in *. lia.
Qed.

Lemma getitem_first {A} (l : list A) : l <> [] -> exists x, getitem l 0 = Ok x.
Proof.
  intros Hne. destruct l as [|x l]; [congruence|]. exists x.
  unfold getitem. rewrite position_nonneg; [reflexivity|]. unfold len. simpl. lia.
Qed.

Section ResearcherRuns.
Variable llm : nat -> list Message -> string.
Variable client : nat -> string -> result (list TavilySearch.Hit).

Lemma search_engine_returns st w :
  messages st <> [] ->
  exists x w',
    Researcher.search_engine llm client st w =
      Ok (outputs_update (default [] (research_outputs st) ++ [x]), w').
Proof.
  intros Hm. destruct (getitem_last _ Hm) as (m & Hg).
  unfold Researcher.search_engine. rewrite Hg. simpl.
  unfold Researcher.invoke, llm_invoke.
  destruct (100 <? Z.of_nat (String.length (content m))); cbv beta iota zeta;
    match goal with
    | |- context [TavilySearch.search client ?q ?w0] =>
        destruct (TavilySearch.search client q w0) as [res w2]
    end;
    do 2 eexists; reflexivity.
Qed.

Lemma grader_returns st w l :
  messages st <> [] ->
  research_outputs st = Some l ->
  l <> [] ->
  exists d w', Researcher.grader llm st w = Ok (decision_update d, w').
Proof.
  intros Hm Hl Hne.
  destruct (getitem_last _ Hne) as (x & Hx).
  destruct (getitem_first _ Hm) as (m & Hg).
  unfold Researcher.grader. rewrite Hl. simpl. rewrite Hx. simpl. rewrite Hg. simpl.
  unfold Researcher.invoke, llm_invoke. cbv beta iota zeta.
  do 2 eexists; reflexivity.
Qed.

Lemma drafter_returns st w l :
  messages st <> [] ->
  research_outputs st = Some l ->
  exists u w', Researcher.drafter llm st w = Ok (u, w').
Proof.
  intros Hm Hl.
  destruct (getitem_last _ Hm) as (m & Hg).
  unfold Researcher.drafter. rewrite Hl. simpl. rewrite Hg. simpl.
  unfold Researcher.invoke, llm_invoke. cbv beta iota zeta.
  do 2 eexists; reflexivity.
Qed.

Local Abbreviation se := Researcher.search_engine_.
Local Abbreviation gr := Researcher.grader_.
Local Abbreviation dr := Researcher.drafter_.

(** [check_grade] finds no decision in the state and falls back on "NO":
    the number of research outputs alone decides. *)
Lemma follow_grader st l :
  research_outputs st = Some l ->
  Graph.follow Researcher.edge gr st =
    Ok (Some (if 2 <=? len l then dr else se)).
Proof.
  intros Hl. unfold Graph.follow. simpl. unfold Researcher.check_grade.
  rewrite Hl. simpl.
  destruct (2 <=? len l); reflexivity.
Qed.

Local Abbreviation rrun := (Graph.run (Researcher.invoke_node llm client) Researcher.edge (fun _ => false)).

Lemma search_then_grade k st w :
  messages st <> [] ->
  exists st1 st2 w2 x,
    messages st2 = messages st /\
    research_outputs st2 = Some (default [] (research_outputs st) ++ [x])%list /\
    (forall m, Graph.follow Researcher.edge gr st2 = Ok (Some m) ->
     rrun (S (S k)) false se st w =
       let r := rrun k false m st2 w2 in
       {| halt := halt r; final := final r; world := world r;
          visits := Build_Visit se st st1 :: Build_Visit gr st1 st2 :: visits r |}).
Proof.
  intros Hm.
  destruct (search_engine_returns st w Hm) as (x & w1 & Hse).
  set (st1 := apply_update st (outputs_update (default [] (research_outputs st) ++ [x]))).
  assert (Hne : (default [] (research_outputs st) ++ [x])%list <> []).
  { intros H. apply app_eq_nil in H as [_ H]. discriminate H. }
  destruct (grader_returns st1 w1 _ Hm eq_refl Hne) as (d & w2 & Hgr).
  set (st2 := apply_update st1 (decision_update d)).
  exists st1, st2, w2, x.
  split; [reflexivity|]. split; [reflexivity|].
  intros m Hf.
  erewrite run_goes_on with (m := gr) (st' := st1) (w' := w1);
    [| reflexivity | | reflexivity].
  2: { simpl. unfold Graph.effectful. rewrite Hse. reflexivity. }
  erewrite run_goes_on with (m := m) (st' := st2) (w' := w2);
    [reflexivity | reflexivity | | exact Hf].
  simpl. unfold Graph.effectful. rewrite Hgr. reflexivity.
Qed.

Lemma draft_ends k st w l :
  messages st <> [] ->
  research_outputs st = Some l ->
  exists st' w',
    rrun (S k) false dr st w =
      {| halt := Ended; final := st'; world := w';
         visits := [Build_Visit dr st st'] |}.
Proof.
  intros Hm Hl. destruct (drafter_returns st w l Hm Hl) as (u & w' & Hd).
  exists (apply_update st u), w'.
  apply run_ends; [reflexivity | | reflexivity].
  simpl. unfold Graph.effectful. rewrite Hd. reflexivity.
Qed.

(** C4, as the code has it.  A run of the researcher graph that starts
    with messages and with no research output comes to its end through
    [drafter] within five node visits; [search_engine] is entered once or
    twice, whatever the grader answers, and twice when no answer of the
    grader is affirmative.  It is entered twice in every such run: the
    grader returns its answer under a key that is no channel of the
    graph, [check_grade] reads "NO", and the count of research outputs,
    1 after the first search and 2 after the second, decides. *)
Theorem researcher_two_searches st w :
  messages st <> [] ->
  default [] (research_outputs st) = [] ->
  let r := Researcher.run llm client 5 st w in
  halt r = Ended /\
  (exists v, last (visits r) = Some v /\ at_node v = dr) /\
  (1 <= Researcher.searches r <= 2)%nat /\
  Researcher.searches r = 2%nat /\
  map at_node (visits r) = [se; gr; se; gr; dr].
Proof.
  intros Hm Hempty r. subst r. unfold Researcher.run, Researcher.entry_point.
  destruct (search_then_grade 3 st w Hm) as (st1 & st2 & w2 & x & Hm2 & Ho2 & Hrun).
  rewrite Hempty in Ho2. simpl in Ho2.
  pose proof (follow_grader st2 _ Ho2) as Hf. simpl in Hf.
  rewrite (Hrun _ Hf).
  assert (Hm2' : messages st2 <> []) by now rewrite Hm2.
  destruct (search_then_grade 1 st2 w2 Hm2')
    as (st3 & st4 & w4 & x' & Hm4 & Ho4 & Hrun').
  rewrite Ho2 in Ho4. simpl in Ho4.
  pose proof (follow_grader st4 _ Ho4) as Hf'. simpl in Hf'.
  rewrite (Hrun' _ Hf').
  assert (Hm4' : messages st4 <> []) by now rewrite Hm4, Hm2.
  destruct (draft_ends 0 st4 w4 _ Hm4' Ho4) as (st5 & w5 & ->). simpl.
  split; [reflexivity|]. split; [eauto|].
  unfold Researcher.searches. simpl. repeat split; lia.
Qed.
End ResearcherRuns.

Lemma researcher_two_searches_witness :
  let r := Researcher.run (Sample.llm_const "NO") Sample.client_empty 5
             Sample.state [] in
  halt r = Ended /\
  (exists v, last (visits r) = Some v /\ at_node v = Researcher.drafter_) /\
  (1 <= Researcher.searches r <= 2)%nat /\
  Researcher.searches r = 2%nat /\
  map at_node (visits r) =
    [Researcher.search_engine_; Researcher.grader_; Researcher.search_engine_;
     Researcher.grader_; Researcher.drafter_].
Proof.
  apply (researcher_two_searches (Sample.llm_const "NO") Sample.client_empty
           Sample.state []).
  - discriminate.
  - reflexivity.
Defined.

(** C4, as the claim has it, fails when every answer of the grader is NO:
    the run ends at [END], no answer was affirmative, and [search_engine]
    was not entered three times: it was entered twice. *)
Lemma researcher_three_searches_counterexample :
  let r := Researcher.run (Sample.llm_const "NO") Sample.client_empty 10
             Sample.state [] in
  (forall n request,
     contains "YES" (upper (strip (Sample.llm_const "NO" n request))) = false) /\
  halt r = Ended /\
  Researcher.searches r = 2%nat /\
  Researcher.searches r <> 3%nat.
Proof.
  split; [intros n request; reflexivity|].
  split; [reflexivity|]. split; [reflexivity|]. vm_compute. discriminate.
Qed.

(** ** The planner *)

(** C3, as the code has it.  When the [try] block of [draft_plan] raises
    on the text of the completion, the node returns (it does not raise)
    an update with an empty plan and one system message that carries the
    text of the exception; merged into the state it empties the plan and
    appends the message.  The update has no [user_validated] key: the
    flag is what it was, also when it was true. *)
Theorem draft_plan_parse_failure llm json_loads PLANNER_PROMPT st w e :
  let response :=
    llm (count is_complete w)
        ([SystemMessage PLANNER_PROMPT] ++ messages st ++
         [HumanMessage "Generate a plan for the above request."])%list in
  Planner.parse json_loads response = Raise e ->
  exists u w',
    Planner.draft_plan llm json_loads PLANNER_PROMPT st w = Some (Ok (u, w')) /\
    u_plan u = Some [] /\
    u_messages u =
      Some (NewMessages [SystemMessage ("Error generating plan: " +:+ exc_str e)]) /\
    u_user_validated u = None /\
    let st' := apply_update st u in
    plan st' = [] /\
    messages st' =
      (messages st ++ [SystemMessage ("Error generating plan: " +:+ exc_str e)])%list /\
    user_validated st' = user_validated st.
Proof.
  intros response Hparse.
  unfold Planner.draft_plan, Planner.invoke, llm_invoke. cbv beta iota zeta.
  fold response. rewrite Hparse.
  do 2 eexists. split; [reflexivity|]. simpl.
  repeat split.
Qed.

Lemma draft_plan_parse_failure_witness :
  exists u w',
    Planner.draft_plan (Sample.llm_const "I cannot help with that.")
      Sample.json_loads_garbage "You are an expert technical planner."
      (Sample.approved Sample.state) [] = Some (Ok (u, w')) /\
    u_plan u = Some [] /\
    u_messages u =
      Some (NewMessages
              [SystemMessage ("Error generating plan: " +:+
                              "Expecting value: line 1 column 1 (char 0)")]) /\
    u_user_validated u = None /\
    let st' := apply_update (Sample.approved Sample.state) u in
    plan st' = [] /\
    messages st' =
      (messages (Sample.approved Sample.state) ++
       [SystemMessage ("Error generating plan: " +:+
                       "Expecting value: line 1 column 1 (char 0)")])%list /\
    user_validated st' = Some true.
Proof.
  apply (draft_plan_parse_failure (Sample.llm_const "I cannot help with that.")
           Sample.json_loads_garbage "You are an expert technical planner."
           (Sample.approved Sample.state) []
           (Exc JSONDecodeError "Expecting value: line 1 column 1 (char 0)")).
  reflexivity.
Defined.

(** ** The main graph from [planner] on *)

Section Turns.
Variable os : nat -> string -> Z -> Launch.
Variable llm : nat -> list Message -> string.
Variable client : nat -> string -> result (list TavilySearch.Hit).
Variable json_loads : string -> result Planner.json.
Variable json_dumps : list PlanStep -> string.
Variable PLANNER_PROMPT : string.

Local Abbreviation stream :=
  (Main.stream os llm client json_loads json_dumps PLANNER_PROMPT).

(** The planner graph is one visit of [draft_plan]. *)
Lemma planner_run st w u w' :
  Planner.draft_plan llm json_loads PLANNER_PROMPT st w = Some (Ok (u, w')) ->
  Graph.subgraph
    (Planner.run llm json_loads PLANNER_PROMPT json_dumps Main.planner_steps st w) =
    Some (Ok (apply_update st u, w')).
Proof.
  intros Hd. unfold Planner.run, Planner.entry_point, Main.planner_steps.
  erewrite run_ends; [reflexivity | reflexivity | | reflexivity].
  simpl. unfold Planner.lift. rewrite Hd. reflexivity.
Qed.


End Turns.



(** * Further properties *)

(** ** The denylist *)

(** ** The denylist, read backwards *)

Lemma prefix_split p s : String.prefix p s = true -> exists b, s = p +:+ b.
Proof.
  revert s. induction p as [|c p IH]; intros s H.
  - exists s. reflexivity.
  - destruct s as [|d s]; [discriminate H|]. simpl in H.
    destruct (ascii_dec c d) as [->|]; [|discriminate H].
    destruct (IH s H) as (b & ->). exists b. reflexivity.
Qed.

Lemma contains_split p s : contains p s = true -> exists a b, s = a +:+ p +:+ b.
Proof.
  induction s as [|c s IH]; cbn [contains]; intros H.
  - rewrite orb_false_r in H. destruct (prefix_split _ _ H) as (b & Hb).
    exists EmptyString, b. exact Hb.
  - apply orb_true_iff in H as [H|H].
    + destruct (prefix_split _ _ H) as (b & Hb). exists EmptyString, b. exact Hb.
    + destruct (IH H) as (a & b & ->). exists (String c a), b. reflexivity.
Qed.

Lemma lower_split c a b :
  lower c = a +:+ b -> exists c1 c2, c = c1 +:+ c2 /\ lower c1 = a /\ lower c2 = b.
Proof.
  revert c. induction a as [|x a IH]; intros c H.
  - exists EmptyString, c. repeat split. exact H.
  - destruct c as [|y c]; [discriminate H|].
    change (String (lower_char y) (lower c) = String x (a +:+ b)) in H.
    injection H as Hx Hr.
    destruct (IH c Hr) as (c1 & c2 & -> & H1 & H2).
    exists (String y c1), c2. repeat split; [|exact H2].
    change (String (lower_char y) (lower c1) = String x a). now rewrite Hx, H1.
Qed.

Lemma mentions_of_contains p c : contains p (lower c) = true -> mentions p c.
Proof.
  intros H. destruct (contains_split _ _ H) as (a & b & Hab).
  destruct (lower_split _ _ _ Hab) as (c1 & c23 & -> & H1 & H23).
  destruct (lower_split _ _ _ H23) as (c2 & c3 & -> & H2 & H3).
  exists c1, c2, c3. split; [reflexivity | exact H2].
Qed.

(** X1.  The denylist of [SafeSubprocess.run] blocks a command exactly
    when the command holds one of the three patterns in some casing, with
    any text before and after it: nothing else is blocked, and no casing
    or padding of a pattern gets through. *)
Theorem blocked_exactly command :
  SafeSubprocess.blocked command = true <->
  exists pattern, In pattern SafeSubprocess.forbidden_patterns /\ mentions pattern command.
Proof.
  split.
  - unfold SafeSubprocess.blocked. intros H. apply existsb_exists in H as (p & Hin & Hc).
    exists p. split; [exact Hin | now apply mentions_of_contains].
  - intros (p & Hin & Hm). now apply (blocked_mentions p).
Qed.

Lemma run_blocked os self c t w :
  SafeSubprocess.blocked c = true ->
  SafeSubprocess.run os self c t w =
    ((-1, EmptyString, "CRITICAL SECURITY: Command blocked by SafeSubprocess: " +:+ c), w).
Proof. intros H. unfold SafeSubprocess.run. now rewrite H. Qed.

Lemma run_log os self c t w :
  extends of_sandbox w (SafeSubprocess.run os self c t w).2.
Proof.
  unfold SafeSubprocess.run, extends.
  destruct (SafeSubprocess.blocked c); simpl.
  { exists []. split; [now rewrite app_nil_r | constructor]. }
  destruct (os _ _ _) as [e|[rc out err|[e|held outs errs|held e]|e]]; simpl;
    try (eexists; split; [reflexivity | repeat constructor]).
  exists []. split; [now rewrite app_nil_r | constructor].
Qed.

(** ** What a run keeps *)

Section EngineInvariant.
Context {Node : Type}.
Variable invoke : Node -> GlobalState -> World -> option (result (GlobalState * World)).
Variable edge : Node -> Graph.Edge Node.
Variable interrupt_before : Node -> bool.
Variable Rs : GlobalState -> GlobalState -> Prop.
Variable Rw : World -> World -> Prop.
Hypothesis Rs_refl : forall st, Rs st st.
Hypothesis Rs_trans : forall a b c, Rs a b -> Rs b c -> Rs a c.
Hypothesis Rw_refl : forall w, Rw w w.
Hypothesis Rw_trans : forall a b c, Rw a b -> Rw b c -> Rw a c.
Hypothesis step : forall n st w st' w',
  interrupt_before n = false ->
  invoke n st w = Some (Ok (st', w')) -> Rs st st' /\ Rw w w'.

Lemma run_keeps k : forall n st w,
  let r := Graph.run invoke edge interrupt_before k false n st w in
  Rs st (final r) /\ Rw w (world r) /\
  Forall (fun v => interrupt_before (at_node v) = false) (visits r).
Proof.
  induction k as [|k IH]; intros n st w; simpl.
  { repeat split; auto. }
  destruct (interrupt_before n) eqn:Hi; simpl.
  { repeat split; auto. }
  destruct (invoke n st w) as [[[st' w']|e]|] eqn:Hn; simpl.
  - destruct (step n st w st' w' Hi Hn) as [Hs Hw].
    destruct (Graph.follow edge n st') as [[m|]|e]; simpl.
    + destruct (IH m st' w') as (Hs' & Hw' & Hv).
      repeat split; eauto.
    + repeat split; auto.
    + repeat split; auto.
  - repeat split; auto.
  - repeat split; auto.
Qed.
End EngineInvariant.

Lemma same_step_refl a : same_step a a.
Proof. now repeat split. Qed.

Lemma same_step_trans a b c : same_step a b -> same_step b c -> same_step a c.
Proof. unfold same_step. intuition congruence. Qed.

Lemma same_steps_refl l : Forall2 same_step l l.
Proof. induction l; constructor; auto using same_step_refl. Qed.

Lemma same_steps_trans l1 l2 l3 :
  Forall2 same_step l1 l2 -> Forall2 same_step l2 l3 -> Forall2 same_step l1 l3.
Proof.
  intros H. revert l3. induction H; intros l3 H3; inversion H3; subst; constructor;
    eauto using same_step_trans.
Qed.

Lemma same_steps_insert l n x y :
  l !! n = Some x -> same_step x y -> Forall2 same_step l (<[n := y]> l).
Proof.
  revert n. induction l as [|a l IH]; intros [|n] Hl Hxy; simpl in *; try discriminate.
  - injection Hl as ->. constructor; [exact Hxy | apply same_steps_refl].
  - constructor; [apply same_step_refl | now apply IH].
Qed.

Lemma executor_frame_refl st : executor_frame st st.
Proof. unfold executor_frame. repeat split; try reflexivity. apply same_steps_refl. Qed.

Lemma executor_frame_trans a b c :
  executor_frame a b -> executor_frame b c -> executor_frame a c.
Proof.
  intros (H1 & H2 & H3 & H4 & H7 & H8) (K1 & K2 & K3 & K4 & K7 & K8).
  unfold executor_frame. repeat split; try congruence.
  - eapply same_steps_trans; eauto.
  - etransitivity; eauto.
  - etransitivity; eauto.
Qed.

Lemma extends_refl p w : extends p w w.
Proof. exists []. split; [now rewrite app_nil_r | constructor]. Qed.

Lemma extends_trans p a b c : extends p a b -> extends p b c -> extends p a c.
Proof.
  intros (e1 & -> & H1) (e2 & -> & H2). exists (e1 ++ e2)%list.
  split; [now rewrite app_assoc | now apply Forall_app].
Qed.

Lemma frame_of_plan st p :
  Forall2 same_step (plan st) p -> executor_frame st (apply_update st (plan_update p)).
Proof. intros H. unfold executor_frame. simpl. repeat split; try reflexivity. exact H. Qed.

Lemma step_parser_frame st u :
  Executor.step_parser st = Ok u -> executor_frame st (apply_update st u).
Proof.
  unfold Executor.step_parser.
  destruct (len (plan st) <=? default 0 (current_step_index st)).
  { intros H. injection H as <-. unfold executor_frame. simpl.
    repeat split; try reflexivity. apply same_steps_refl. }
  destruct (getitem (plan st) _) as [step|e] eqn:Hg; simpl; [|discriminate].
  destruct (getitem_position _ _ _ Hg) as (n & Hp & Hn).
  rewrite (setitem_position _ _ _ _ Hp). simpl.
  intros H. injection H as <-. apply frame_of_plan.
  apply (same_steps_insert _ _ step); [exact Hn | now repeat split].
Qed.

Lemma safety_guard_frame st u :
  Executor.safety_guard st = Ok u -> apply_update st u = st.
Proof.
  unfold Executor.safety_guard.
  destruct (current_step_index st) as [idx|]; simpl; [|discriminate].
  destruct (getitem (plan st) idx) as [step|e]; simpl; [|discriminate].
  destruct (get_command_or step EmptyString) as [c|]; simpl; [|discriminate].
  destruct (contains "rm -rf /" c); intros H; injection H as <-.
  - apply apply_same_plan.
  - apply apply_no_update.
Qed.

Lemma terminal_runner_frame os st w u w' :
  Executor.terminal_runner os st w = Ok (u, w') ->
  executor_frame st (apply_update st u) /\ extends of_sandbox w w'.
Proof.
  unfold Executor.terminal_runner.
  destruct (current_step_index st) as [idx|]; simpl; [|discriminate].
  destruct (getitem (plan st) idx) as [step|e] eqn:Hg; simpl; [|discriminate].
  destruct (getitem_position _ _ _ Hg) as (n & Hp & Hn).
  assert (Hsame : forall o s, Forall2 same_step (plan st)
                    (<[n := set_output o (set_status s step)]> (plan st))).
  { intros o s. apply (same_steps_insert _ _ step); [exact Hn | now repeat split]. }
  destruct (falsy (get_command step)).
  - rewrite (setitem_position _ _ _ _ Hp). simpl.
    intros H. injection H as <- <-. split; [|apply extends_refl].
    unfold executor_frame. simpl. repeat split; try reflexivity; [apply Hsame|].
    now apply prefix_app_r.
  - pose proof (run_log os Executor.safe_runner (or_empty (get_command step)) None w) as Hlog.
    destruct (SafeSubprocess.run os Executor.safe_runner _ None w) as [[[rc out] err] w1].
    simpl in Hlog.
    destruct (rc =? 0); rewrite (setitem_position _ _ _ _ Hp); simpl;
      intros H; injection H as <- <-; (split; [|exact Hlog]);
      unfold executor_frame; simpl; repeat split; try reflexivity;
      try apply Hsame; now apply prefix_app_r.
Qed.

Lemma error_handler_frame st u :
  Executor.error_handler st = Ok u -> executor_frame st (apply_update st u).
Proof.
  unfold Executor.error_handler.
  destruct (current_step_index st) as [idx|]; simpl; [|discriminate].
  intros H. injection H as <-. unfold executor_frame. simpl.
  repeat split; try reflexivity; [apply same_steps_refl | now apply prefix_app_r].
Qed.

Lemma executor_node_frame os n st w st' w' :
  Executor.invoke os n st w = Some (Ok (st', w')) ->
  executor_frame st st' /\ extends of_sandbox w w'.
Proof.
  destruct n; simpl; unfold Graph.plain, Graph.effectful; intros H.
  - destruct (Executor.step_parser st) as [u|e] eqn:Hu; simpl in H; [|discriminate].
    injection H as <- <-. split; [now apply step_parser_frame | apply extends_refl].
  - destruct (Executor.safety_guard st) as [u|e] eqn:Hu; simpl in H; [|discriminate].
    injection H as <- <-. rewrite (safety_guard_frame _ _ Hu).
    split; [apply executor_frame_refl | apply extends_refl].
  - destruct (Executor.terminal_runner os st w) as [[u w1]|e] eqn:Hu; simpl in H; [|discriminate].
    injection H as <- <-. now apply (terminal_runner_frame os).
  - destruct (Executor.error_handler st) as [u|e] eqn:Hu; simpl in H; [|discriminate].
    injection H as <- <-. split; [now apply error_handler_frame | apply extends_refl].
Qed.

Lemma executor_run_keeps os k st w :
  let r := Executor.run os k st w in
  executor_frame st (final r) /\ extends of_sandbox w (world r).
Proof.
  intros r.
  destruct (run_keeps (Executor.invoke os) Executor.edge (fun _ => false)
              executor_frame (extends of_sandbox)
              executor_frame_refl executor_frame_trans
              (extends_refl of_sandbox) (extends_trans of_sandbox)
              (fun n st w st' w' _ H => executor_node_frame os n st w st' w' H)
              k Executor.entry_point st w) as (Hs & Hw & _).
  split; assumption.
Qed.

(** X2.  Whatever the plan, the cursor, the processes and the step budget
    are, and however the run ends, a run of the executor graph keeps the
    steps of the plan in number and in order, each with its id,
    description, command and risk level (only status and output change);
    it leaves [research_outputs], [user_validated] and [file_context] as
    they were; it keeps the messages and the execution history it started
    with as a prefix of the final ones; and all it adds to the log of the
    outside world are processes spawned and killed: it calls neither the
    completion service nor the search service. *)
Theorem executor_run_frame os k st w :
  let r := Executor.run os k st w in
  Forall2 same_step (plan st) (plan (final r)) /\
  research_outputs (final r) = research_outputs st /\
  user_validated (final r) = user_validated st /\
  file_context (final r) = file_context st /\
  messages st `prefix_of` messages (final r) /\
  default [] (execution_history st) `prefix_of` default [] (execution_history (final r)) /\
  extends of_sandbox w (world r).
Proof.
  intros r. destruct (executor_run_keeps os k st w) as [(H1 & H2 & H3 & H4 & H7 & H8) Hw].
  repeat split; assumption.
Qed.

(** ** One step of the executor, in full *)

Lemma position_below_len {A} (l : list A) i n : position l i = Ok n -> i < len l.
Proof.
  unfold position. intros H.
  destruct ((0 <=? i) && (i <? len l)) eqn:E1.
  - apply andb_true_iff in E1 as [_ E1]. lia.
  - destruct ((i <? 0) && (- len l <=? i)) eqn:E2; [|discriminate].
    apply andb_true_iff in E2 as [E2 _]. unfold len. lia.
Qed.

Lemma step_parser_at st n step :
  position (plan st) (cursor st) = Ok n ->
  plan st !! n = Some step ->
  Executor.step_parser st =
    Ok (plan_update (<[n := set_status "in_progress" step]> (plan st))).
Proof.
  intros Hp Hl. unfold Executor.step_parser. fold (cursor st).
  pose proof (position_below_len _ _ _ Hp).
  destruct (len (plan st) <=? cursor st) eqn:E; [lia|].
  rewrite (getitem_of_position _ _ _ _ Hp Hl). simpl.
  rewrite (setitem_position _ _ _ _ Hp). reflexivity.
Qed.

(** What [terminal_runner] returns for a command the sandbox has run. *)
Lemma terminal_runner_runs os st w idx n step c rc out err w' :
  current_step_index st = Some idx ->
  position (plan st) idx = Ok n ->
  plan st !! n = Some step ->
  get_command step = Some c ->
  c <> EmptyString ->
  SafeSubprocess.run os Executor.safe_runner c None w = ((rc, out, err), w') ->
  Executor.terminal_runner os st w =
    Ok ({| u_messages := None;
           u_plan :=
             Some (<[n := set_output (out +:+ nl +:+ err)
                            (set_status (if rc =? 0 then "done" else "failed") step)]>
                     (plan st));
           u_current_step_index := if rc =? 0 then Some (idx + 1) else None;
           u_research_outputs := None;
           u_execution_history :=
             Some (default [] (execution_history st) ++
                   [history_record step c rc out err])%list;
           u_user_validated := None; u_grader_decision := None;
           u_route_target := None |}, w').
Proof.
  intros Hi Hp Hl Hc Hne Hrun.
  unfold Executor.terminal_runner. rewrite Hi. simpl.
  rewrite (getitem_of_position _ _ _ _ Hp Hl). simpl.
  rewrite Hc, (falsy_not_empty c Hne). simpl or_empty. rewrite Hrun.
  destruct (rc =? 0); rewrite (setitem_position _ _ _ _ Hp); reflexivity.
Qed.

(** The first three visits of a run whose cursor is on a step. *)
Lemma run_through_step os k st w idx n step u w' m :
  current_step_index st = Some idx ->
  position (plan st) idx = Ok n ->
  plan st !! n = Some step ->
  command step <> PyNone ->
  let st1 := apply_update st (plan_update (<[n := set_status "in_progress" step]> (plan st))) in
  Executor.terminal_runner os st1 w = Ok (u, w') ->
  let st2 := apply_update st1 u in
  Graph.follow Executor.edge tr st2 = Ok (Some m) ->
  Executor.run os (S (S (S k))) st w =
    let r := Graph.run (Executor.invoke os) Executor.edge (fun _ => false) k false m st2 w' in
    {| halt := halt r; final := final r; world := world r;
       visits := Build_Visit sp st st1 :: Build_Visit sg st1 st1 ::
                 Build_Visit tr st1 st2 :: visits r |}.
Proof.
  intros Hi Hp Hl Hc st1 Htr st2 Hf.
  assert (Hcur : cursor st = idx) by (unfold cursor; now rewrite Hi).
  assert (Hsp : Executor.step_parser st =
                Ok (plan_update (<[n := set_status "in_progress" step]> (plan st)))).
  { apply step_parser_at; [now rewrite Hcur | exact Hl]. }
  assert (Hi1 : current_step_index st1 = Some idx) by exact Hi.
  assert (Hg1 : getitem (plan st1) idx = Ok (set_status "in_progress" step)).
  { simpl. now apply getitem_insert. }
  destruct (safety_guard_returns st1 idx _ Hi1 Hg1 Hc) as (u2 & Hsg & Hst1).
  unfold Executor.run, Executor.entry_point.
  erewrite run_goes_on with (m := sg) (st' := st1) (w' := w);
    [| reflexivity | | reflexivity].
  2: { simpl. unfold Graph.plain. rewrite Hsp. reflexivity. }
  erewrite run_goes_on with (m := tr) (st' := st1) (w' := w);
    [| reflexivity | | reflexivity].
  2: { simpl. unfold Graph.plain. rewrite Hsg. simpl. now rewrite Hst1. }
  erewrite run_goes_on with (m := m) (st' := st2) (w' := w');
    [reflexivity | reflexivity | | exact Hf].
  simpl. unfold Graph.effectful. rewrite Htr. reflexivity.
Qed.

Lemma error_handler_ends os k st w idx :
  current_step_index st = Some idx ->
  Graph.run (Executor.invoke os) Executor.edge (fun _ => false) (S k) false eh st w =
    {| halt := Ended;
       final := apply_update st
                  {| u_messages := Some (ChannelList (messages st ++ [failure_notice idx]));
                     u_plan := None; u_current_step_index := None;
                     u_research_outputs := None; u_execution_history := None;
                     u_user_validated := None; u_grader_decision := None;
                     u_route_target := None |};
       world := w;
       visits := [Build_Visit eh st
                    (apply_update st
                       {| u_messages := Some (ChannelList (messages st ++ [failure_notice idx]));
                          u_plan := None; u_current_step_index := None;
                          u_research_outputs := None; u_execution_history := None;
                          u_user_validated := None; u_grader_decision := None;
                          u_route_target := None |})] |}.
Proof.
  intros Hi. apply run_ends; [reflexivity | | reflexivity].
  simpl. unfold Graph.plain, Executor.error_handler. rewrite Hi. reflexivity.
Qed.

(** The run of a step whose command fails. *)
Lemma run_fails os k st w idx n step c rc out err w' :
  current_step_index st = Some idx ->
  position (plan st) idx = Ok n ->
  plan st !! n = Some step ->
  command step = Str c ->
  c <> EmptyString ->
  SafeSubprocess.run os Executor.safe_runner c None w = ((rc, out, err), w') ->
  rc <> 0 ->
  let r := Executor.run os (S (S (S (S k)))) st w in
  halt r = Ended /\
  map at_node (visits r) = [sp; sg; tr; eh] /\
  world r = w' /\
  plan (final r) =
    <[n := set_output (out +:+ nl +:+ err) (set_status "failed" step)]> (plan st) /\
  current_step_index (final r) = Some idx /\
  messages (final r) = (messages st ++ [failure_notice idx])%list /\
  execution_history (final r) =
    Some (default [] (execution_history st) ++ [history_record step c rc out err])%list.
Proof.
  intros Hi Hp Hl Hc Hne Hrun Hrc r.
  set (step1 := set_status "in_progress" step).
  set (st1 := apply_update st (plan_update (<[n := step1]> (plan st)))).
  assert (Hlt : (n < length (plan st))%nat) by now apply position_lt in Hp.
  assert (Hp1 : position (plan st1) idx = Ok n) by (simpl; now rewrite position_insert).
  assert (Hl1 : plan st1 !! n = Some step1) by (simpl; now apply list_lookup_insert_eq).
  assert (Hgc : get_command step1 = Some c) by (unfold get_command; simpl; now rewrite Hc).
  pose proof (terminal_runner_runs os st1 w idx n step1 c rc out err w'
                Hi Hp1 Hl1 Hgc Hne Hrun) as Htr.
  destruct (rc =? 0) eqn:E; [lia|].
  match type of Htr with _ = Ok (?u0, _) => set (u := u0) in * end.
  set (st2 := apply_update st1 u).
  assert (Hpl2 : plan st2 =
                 <[n := set_output (out +:+ nl +:+ err) (set_status "failed" step)]> (plan st)).
  { simpl. apply list_insert_insert_eq. }
  assert (Hg2 : getitem (plan st2) idx =
                Ok (set_output (out +:+ nl +:+ err) (set_status "failed" step))).
  { rewrite Hpl2. now apply getitem_insert. }
  assert (Hf : Graph.follow Executor.edge tr st2 = Ok (Some eh)).
  { apply (follow_tr_failed st2 idx _ Hi Hg2). reflexivity. }
  assert (Hcn : command step <> PyNone) by (rewrite Hc; discriminate).
  subst r.
  rewrite (run_through_step os (S k) st w idx n step u w' eh Hi Hp Hl Hcn Htr Hf).
  cbv zeta. erewrite error_handler_ends by exact Hi. simpl.
  repeat split; [exact Hpl2 | exact Hi].
Qed.

(** X3.  When the step under the cursor has a command and its process
    exits with code 0, [terminal_runner] marks the step done, stores the
    combined output in it, appends one record (step id, command, exit
    code 0, combined output) to [execution_history] and moves the cursor
    on by one. *)
Theorem terminal_runner_zero_exit os st w idx step c out err w' :
  current_step_index st = Some idx ->
  getitem (plan st) idx = Ok step ->
  get_command step = Some c ->
  c <> EmptyString ->
  SafeSubprocess.run os Executor.safe_runner c None w = ((0, out, err), w') ->
  exists u,
    Executor.terminal_runner os st w = Ok (u, w') /\
    let st' := apply_update st u in
    getitem (plan st') idx =
      Ok {| id := id step; description := description step;
            command := command step; risk_level := risk_level step;
            status := "done"; output := Some (out +:+ nl +:+ err) |} /\
    execution_history st' =
      Some (default [] (execution_history st) ++
            [{| h_step_id := Some (id step); h_command := Some c;
                h_return_code := Some 0; h_output := out +:+ nl +:+ err |}])%list /\
    current_step_index st' = Some (idx + 1).
Proof.
  intros Hi Hg Hc Hne Hrun.
  destruct (getitem_position _ _ _ Hg) as (n & Hp & Hl).
  rewrite (terminal_runner_runs os st w idx n step c 0 out err w' Hi Hp Hl Hc Hne Hrun).
  eexists. split; [reflexivity|]. simpl.
  rewrite (getitem_insert _ _ _ _ Hp). repeat split.
Qed.

Lemma terminal_runner_zero_exit_witness :
  exists u,
    Executor.terminal_runner (Sample.os_exit 0)
      (Sample.with_plan [Sample.step "1" "ls"] 0 Sample.state) [] =
      Ok (u, [EvPopen "ls"]) /\
    let st' := apply_update (Sample.with_plan [Sample.step "1" "ls"] 0 Sample.state) u in
    getitem (plan st') 0 =
      Ok {| id := "1"; description := "run ls"; command := Str "ls";
            risk_level := "LOW"; status := "done";
            output := Some ("out" +:+ nl +:+ "err") |} /\
    execution_history st' =
      Some ([] ++
            [{| h_step_id := Some "1"; h_command := Some "ls";
                h_return_code := Some 0; h_output := "out" +:+ nl +:+ "err" |}])%list /\
    current_step_index st' = Some (0 + 1).
Proof.
  apply (terminal_runner_zero_exit (Sample.os_exit 0)
           (Sample.with_plan [Sample.step "1" "ls"] 0 Sample.state) []
           0 (Sample.step "1" "ls") "ls" "out" "err" [EvPopen "ls"]);
    try reflexivity. discriminate.
Defined.

(** X4.  When the cursor denotes a step of the plan, [step_parser] sets
    the status of that step to in_progress, whatever status it had, and
    changes nothing else: every other step, the length of the plan, the
    cursor, the messages and the history are as before. *)
Theorem step_parser_marks st n step :
  position (plan st) (cursor st) = Ok n ->
  plan st !! n = Some step ->
  exists u,
    Executor.step_parser st = Ok u /\
    let st' := apply_update st u in
    plan st' !! n = Some (set_status "in_progress" step) /\
    status_at st' (cursor st) = Some "in_progress" /\
    (forall j, j <> n -> plan st' !! j = plan st !! j) /\
    length (plan st') = length (plan st) /\
    current_step_index st' = current_step_index st /\
    messages st' = messages st /\
    execution_history st' = execution_history st.
Proof.
  intros Hp Hl. rewrite (step_parser_at st n step Hp Hl).
  eexists. split; [reflexivity|]. simpl.
  assert (Hlt : (n < length (plan st))%nat) by now apply position_lt in Hp.
  split; [now apply list_lookup_insert_eq|].
  split. { unfold status_at. simpl. now rewrite (getitem_insert _ _ _ _ Hp). }
  split. { intros j Hj. now apply list_lookup_insert_ne. }
  split; [apply length_insert|]. repeat split.
Qed.

Lemma step_parser_marks_witness :
  exists u,
    Executor.step_parser (Sample.with_plan [More.stale "1" "make"] 0 Sample.state) = Ok u /\
    let st' := apply_update (Sample.with_plan [More.stale "1" "make"] 0 Sample.state) u in
    plan st' !! 0%nat = Some (set_status "in_progress" (More.stale "1" "make")) /\
    status_at st' 0 = Some "in_progress" /\
    (forall j, j <> 0%nat -> plan st' !! j = [More.stale "1" "make"] !! j) /\
    length (plan st') = 1%nat /\
    current_step_index st' = Some 0 /\
    messages st' = messages Sample.state /\
    execution_history st' = None.
Proof.
  apply (step_parser_marks (Sample.with_plan [More.stale "1" "make"] 0 Sample.state)
           0%nat (More.stale "1" "make")); reflexivity.
Defined.

(** X5.  When the command of the step under the cursor exits with a
    nonzero code, the run of the executor graph enters [step_parser],
    [safety_guard], [terminal_runner] and [error_handler] once each and
    ends at [END]: no later step is run.  The step is failed and holds the
    combined output, the cursor stays on it, one record is added to the
    history, and the messages get the line "Execution failed at step N."
    with N the cursor plus one. *)
Theorem run_stops_at_failure os k st w idx n step c rc out err w' :
  current_step_index st = Some idx ->
  position (plan st) idx = Ok n ->
  plan st !! n = Some step ->
  command step = Str c ->
  c <> EmptyString ->
  SafeSubprocess.run os Executor.safe_runner c None w = ((rc, out, err), w') ->
  rc <> 0 ->
  let r := Executor.run os (S (S (S (S k)))) st w in
  halt r = Ended /\
  map at_node (visits r) = [sp; sg; tr; eh] /\
  world r = w' /\
  plan (final r) =
    <[n := {| id := id step; description := description step;
             command := command step; risk_level := risk_level step;
             status := "failed"; output := Some (out +:+ nl +:+ err) |}]>
      (plan st) /\
  current_step_index (final r) = Some idx /\
  messages (final r) =
    (messages st ++
     [SystemMessage ("Execution failed at step " +:+ str_of_int (idx + 1) +:+ ".")])%list /\
  execution_history (final r) =
    Some (default [] (execution_history st) ++
          [{| h_step_id := Some (id step); h_command := Some c;
              h_return_code := Some rc; h_output := out +:+ nl +:+ err |}])%list.
Proof.
  intros Hi Hp Hl Hc Hne Hrun Hrc r.
  destruct (run_fails os k st w idx n step c rc out err w' Hi Hp Hl Hc Hne Hrun Hrc)
    as (H1 & H2 & H3 & H4 & H5 & H6 & H7).
  subst r. rewrite H4, H6, H7. repeat split; assumption.
Qed.

Lemma run_stops_at_failure_witness :
  let st := Sample.with_plan [Sample.step "1" "make"; Sample.step "2" "ls"] 0 Sample.state in
  let r := Executor.run (Sample.os_exit 2) 4 st [] in
  halt r = Ended /\
  map at_node (visits r) = [sp; sg; tr; eh] /\
  world r = [EvPopen "make"] /\
  plan (final r) =
    [{| id := "1"; description := "run make"; command := Str "make";
        risk_level := "LOW"; status := "failed";
        output := Some ("out" +:+ nl +:+ "err") |};
     Sample.step "2" "ls"] /\
  current_step_index (final r) = Some 0 /\
  messages (final r) =
    (messages st ++ [SystemMessage "Execution failed at step 1."])%list /\
  execution_history (final r) =
    Some [{| h_step_id := Some "1"; h_command := Some "make";
             h_return_code := Some 2; h_output := "out" +:+ nl +:+ "err" |}].
Proof.
  apply (run_stops_at_failure (Sample.os_exit 2) 0
           (Sample.with_plan [Sample.step "1" "make"; Sample.step "2" "ls"] 0 Sample.state)
           [] 0 0%nat (Sample.step "1" "make") "make" 2 "out" "err" [EvPopen "make"]);
    try reflexivity; [discriminate | lia].
Defined.

Lemma blocked_not_empty c : SafeSubprocess.blocked c = true -> c <> EmptyString.
Proof. intros H ->. vm_compute in H. discriminate H. Qed.

(** X6.  A step whose command holds a pattern of the denylist, in any
    casing, is never handed to the shell by the executor graph, approved
    or not: the run spawns no process (the log is unchanged), the step
    ends as failed with the security-block message as its output, the
    history records exit code -1, [error_handler] reports the failure and
    the run ends. *)
Theorem executor_refuses_denylisted os k st w idx n step c pattern :
  current_step_index st = Some idx ->
  position (plan st) idx = Ok n ->
  plan st !! n = Some step ->
  command step = Str c ->
  In pattern SafeSubprocess.forbidden_patterns ->
  mentions pattern c ->
  let r := Executor.run os (S (S (S (S k)))) st w in
  let notice := "CRITICAL SECURITY: Command blocked by SafeSubprocess: " +:+ c in
  halt r = Ended /\
  map at_node (visits r) = [sp; sg; tr; eh] /\
  world r = w /\
  plan (final r) !! n =
    Some {| id := id step; description := description step;
            command := command step; risk_level := risk_level step;
            status := "failed"; output := Some (nl +:+ notice) |} /\
  current_step_index (final r) = Some idx /\
  messages (final r) =
    (messages st ++
     [SystemMessage ("Execution failed at step " +:+ str_of_int (idx + 1) +:+ ".")])%list /\
  execution_history (final r) =
    Some (default [] (execution_history st) ++
          [{| h_step_id := Some (id step); h_command := Some c;
              h_return_code := Some (-1); h_output := nl +:+ notice |}])%list.
Proof.
  intros Hi Hp Hl Hc Hin Hm r notice.
  pose proof (blocked_mentions pattern c Hin Hm) as Hb.
  pose proof (run_blocked os Executor.safe_runner c None w Hb) as Hrun.
  destruct (run_fails os k st w idx n step c (-1) EmptyString notice w
              Hi Hp Hl Hc (blocked_not_empty c Hb) Hrun ltac:(lia))
    as (H1 & H2 & H3 & H4 & H5 & H6 & H7).
  repeat split; try assumption.
  subst r. rewrite H4. apply list_lookup_insert_eq. now apply position_lt in Hp.
Qed.

Lemma executor_refuses_denylisted_witness :
  let st := Sample.with_plan [Sample.step "1" "sudo RM -rf /"] 0
              (Sample.approved Sample.state) in
  let r := Executor.run (Sample.os_exit 0) 4 st [] in
  let notice := "CRITICAL SECURITY: Command blocked by SafeSubprocess: " +:+ "sudo RM -rf /" in
  halt r = Ended /\
  map at_node (visits r) = [sp; sg; tr; eh] /\
  world r = [] /\
  plan (final r) !! 0%nat =
    Some {| id := "1"; description := "run sudo RM -rf /";
            command := Str "sudo RM -rf /"; risk_level := "LOW";
            status := "failed"; output := Some (nl +:+ notice) |} /\
  current_step_index (final r) = Some 0 /\
  messages (final r) =
    (messages st ++ [SystemMessage "Execution failed at step 1."])%list /\
  execution_history (final r) =
    Some [{| h_step_id := Some "1"; h_command := Some "sudo RM -rf /";
             h_return_code := Some (-1); h_output := nl +:+ notice |}].
Proof.
  apply (executor_refuses_denylisted (Sample.os_exit 0) 0
           (Sample.with_plan [Sample.step "1" "sudo RM -rf /"] 0
              (Sample.approved Sample.state))
           [] 0 0%nat (Sample.step "1" "sudo RM -rf /") "sudo RM -rf /" "rm -rf /");
    try reflexivity.
  - simpl. left. reflexivity.
  - exists "sudo ", "RM -rf /", EmptyString. split; reflexivity.
Defined.

(** X7.  [check_execution_result] reads the status of the step under the
    cursor after [terminal_runner] has moved the cursor on.  So when a
    step succeeds and the step after it carries the status failed from
    before the run (no node resets a status when a run starts), the run
    goes to [error_handler] and ends: [terminal_runner] was entered for
    the first step only, the next step is untouched, and the message names
    the next step, which never ran, as the one that failed. *)
Theorem failure_reported_for_unrun_step os k st w idx step next c out err w' :
  current_step_index st = Some idx ->
  0 <= idx ->
  plan st !! Z.to_nat idx = Some step ->
  plan st !! Z.to_nat (idx + 1) = Some next ->
  status next = "failed" ->
  command step = Str c ->
  c <> EmptyString ->
  SafeSubprocess.run os Executor.safe_runner c None w = ((0, out, err), w') ->
  let r := Executor.run os (S (S (S (S k)))) st w in
  halt r = Ended /\
  map at_node (visits r) = [sp; sg; tr; eh] /\
  executed (visits r) = [idx] /\
  world r = w' /\
  plan (final r) !! Z.to_nat (idx + 1) = Some next /\
  current_step_index (final r) = Some (idx + 1) /\
  messages (final r) = (messages st ++ [failure_notice (idx + 1)])%list.
Proof.
  intros Hi H0 Hl Hnext Hs Hc Hne Hrun r.
  set (n := Z.to_nat idx) in *.
  assert (Hn' : Z.to_nat (idx + 1) = S n) by (subst n; lia).
  rewrite Hn' in *.
  assert (Hlt : (S n < length (plan st))%nat) by (apply lookup_lt_Some in Hnext; exact Hnext).
  assert (Hp : position (plan st) idx = Ok n).
  { apply position_nonneg. unfold len. lia. }
  set (step1 := set_status "in_progress" step).
  set (st1 := apply_update st (plan_update (<[n := step1]> (plan st)))).
  assert (Hp1 : position (plan st1) idx = Ok n) by (simpl; now rewrite position_insert).
  assert (Hl1 : plan st1 !! n = Some step1).
  { simpl. apply list_lookup_insert_eq. lia. }
  assert (Hgc : get_command step1 = Some c) by (unfold get_command; simpl; now rewrite Hc).
  pose proof (terminal_runner_runs os st1 w idx n step1 c 0 out err w'
                Hi Hp1 Hl1 Hgc Hne Hrun) as Htr.
  simpl (0 =? 0) in Htr. cbv iota in Htr.
  match type of Htr with _ = Ok (?u0, _) => set (u := u0) in * end.
  set (st2 := apply_update st1 u).
  assert (Hi2 : current_step_index st2 = Some (idx + 1)) by reflexivity.
  assert (Hl2 : plan st2 !! S n = Some next).
  { simpl. rewrite !list_lookup_insert_ne by lia. exact Hnext. }
  assert (Hp2 : position (plan st2) (idx + 1) = Ok (S n)).
  { rewrite <- Hn'. apply position_nonneg. unfold len. simpl.
    rewrite !length_insert. lia. }
  assert (Hf : Graph.follow Executor.edge tr st2 = Ok (Some eh)).
  { apply (follow_tr_failed st2 (idx + 1) next Hi2); [|exact Hs].
    exact (getitem_of_position _ _ _ _ Hp2 Hl2). }
  assert (Hcn : command step <> PyNone) by (rewrite Hc; discriminate).
  subst r.
  rewrite (run_through_step os (S k) st w idx n step u w' eh Hi Hp Hl Hcn Htr Hf).
  cbv zeta. erewrite error_handler_ends by exact Hi2. simpl.
  unfold cursor. simpl. rewrite Hi. simpl.
  repeat split. rewrite !list_lookup_insert_ne by lia. exact Hnext.
Qed.

Lemma failure_reported_for_unrun_step_witness :
  let st := Sample.with_plan [Sample.step "1" "ls"; More.stale "2" "make"] 0 Sample.state in
  let r := Executor.run (Sample.os_exit 0) 4 st [] in
  halt r = Ended /\
  map at_node (visits r) = [sp; sg; tr; eh] /\
  executed (visits r) = [0] /\
  world r = [EvPopen "ls"] /\
  plan (final r) !! Z.to_nat (0 + 1) = Some (More.stale "2" "make") /\
  current_step_index (final r) = Some (0 + 1) /\
  messages (final r) = (messages st ++ [failure_notice (0 + 1)])%list.
Proof.
  apply (failure_reported_for_unrun_step (Sample.os_exit 0) 0
           (Sample.with_plan [Sample.step "1" "ls"; More.stale "2" "make"] 0 Sample.state)
           [] 0 (Sample.step "1" "ls") (More.stale "2" "make") "ls" "out" "err"
           [EvPopen "ls"]); try reflexivity; try lia; discriminate.
Defined.

(** ** More on the researcher *)

Lemma researcher_frame_refl st : researcher_frame st st.
Proof. unfold researcher_frame. repeat split; reflexivity. Qed.

Lemma researcher_frame_trans a b c :
  researcher_frame a b -> researcher_frame b c -> researcher_frame a c.
Proof.
  intros (H1 & H2 & H3 & H4 & H5 & H7 & H8) (K1 & K2 & K3 & K4 & K5 & K7 & K8).
  unfold researcher_frame. repeat split; try congruence; etransitivity; eauto.
Qed.

Lemma llm_invoke_log llm input w : extends of_services w (llm_invoke llm input w).2.
Proof. eexists. split; [reflexivity | repeat constructor]. Qed.

Lemma search_log client q w : extends of_services w (TavilySearch.search client q w).2.
Proof.
  unfold TavilySearch.search.
  destruct (client _ q) as [hits|e]; [destruct (map _ hits)|]; simpl;
    eexists; (split; [reflexivity | repeat constructor]).
Qed.

Section ResearcherFrame.
Variable llm : nat -> list Message -> string.
Variable client : nat -> string -> result (list TavilySearch.Hit).

Local Abbreviation se := Researcher.search_engine_.
Local Abbreviation gr := Researcher.grader_.
Local Abbreviation dr := Researcher.drafter_.
Local Abbreviation rrun :=
  (Graph.run (Researcher.invoke_node llm client) Researcher.edge (fun _ => false)).

Lemma search_engine_keeps st w u w' :
  Researcher.search_engine llm client st w = Ok (u, w') ->
  researcher_frame st (apply_update st u) /\ extends of_services w w'.
Proof.
  unfold Researcher.search_engine.
  destruct (getitem (messages st) (-1)) as [m|e]; simpl; [|discriminate].
  set (q := if 100 <? Z.of_nat (String.length (content m))
            then Researcher.invoke llm
                   ("Extract a concise search query from this: " +:+ content m) w
            else (content m, w)).
  assert (Hq : extends of_services w q.2).
  { subst q. destruct (100 <? _); [apply llm_invoke_log | apply extends_refl]. }
  destruct q as [query w1]. simpl in Hq.
  pose proof (search_log client query w1) as Hs.
  destruct (TavilySearch.search client query w1) as [res w2]. simpl in Hs.
  intros H. injection H as <- <-.
  split; [|eapply extends_trans; eauto].
  unfold researcher_frame. simpl. repeat split; try reflexivity.
  now apply prefix_app_r.
Qed.

Lemma grader_keeps st w u w' :
  Researcher.grader llm st w = Ok (u, w') ->
  researcher_frame st (apply_update st u) /\ extends of_services w w'.
Proof.
  unfold Researcher.grader.
  destruct (research_outputs st) as [l|]; simpl; [|discriminate].
  destruct (getitem l (-1)) as [x|e]; simpl; [|discriminate].
  destruct (getitem (messages st) 0) as [m|e]; simpl; [|discriminate].
  unfold Researcher.invoke, llm_invoke. cbv beta iota zeta.
  intros H. injection H as <- <-.
  split; [|eexists; split; [reflexivity | repeat constructor]].
  unfold researcher_frame. simpl. repeat split; reflexivity.
Qed.

Lemma drafter_keeps st w u w' :
  Researcher.drafter llm st w = Ok (u, w') ->
  researcher_frame st (apply_update st u) /\ extends of_services w w' /\
  exists answer,
    messages (apply_update st u) = (messages st ++ [{| role := ai; content := answer |}])%list /\
    research_outputs (apply_update st u) = research_outputs st.
Proof.
  unfold Researcher.drafter.
  destruct (research_outputs st) as [l|] eqn:Hl; simpl; [|discriminate].
  destruct (getitem (messages st) (-1)) as [m|e]; simpl; [|discriminate].
  unfold Researcher.invoke, llm_invoke. cbv beta iota zeta.
  intros H. injection H as <- <-.
  split; [|split; [eexists; split; [reflexivity | repeat constructor]|]].
  - unfold researcher_frame. simpl. rewrite Hl. repeat split; try reflexivity.
    now apply prefix_app_r.
  - eexists. simpl. rewrite Hl. split; reflexivity.
Qed.

Lemma researcher_node_frame n st w st' w' :
  Researcher.invoke_node llm client n st w = Some (Ok (st', w')) ->
  researcher_frame st st' /\ extends of_services w w'.
Proof.
  destruct n; simpl; unfold Graph.effectful; intros H.
  - destruct (Researcher.search_engine llm client st w) as [[u w1]|e] eqn:Hu;
      simpl in H; [|discriminate].
    injection H as <- <-. now apply search_engine_keeps.
  - destruct (Researcher.grader llm st w) as [[u w1]|e] eqn:Hu;
      simpl in H; [|discriminate].
    injection H as <- <-. now apply grader_keeps.
  - destruct (Researcher.drafter llm st w) as [[u w1]|e] eqn:Hu;
      simpl in H; [|discriminate].
    injection H as <- <-. destruct (drafter_keeps _ _ _ _ Hu) as (? & ? & _). now split.
Qed.

Lemma researcher_run_keeps k st w :
  let r := Researcher.run llm client k st w in
  researcher_frame st (final r) /\ extends of_services w (world r).
Proof.
  intros r.
  destruct (run_keeps (Researcher.invoke_node llm client) Researcher.edge (fun _ => false)
              researcher_frame (extends of_services)
              researcher_frame_refl researcher_frame_trans
              (extends_refl of_services) (extends_trans of_services)
              (fun n st w st' w' _ H => researcher_node_frame n st w st' w' H)
              k Researcher.entry_point st w) as (Hs & Hw & _).
  split; assumption.
Qed.

Lemma services_spawn_nothing w w' :
  extends of_services w w' -> count is_popen w' = count is_popen w.
Proof.
  intros (evs & -> & Hev). unfold count, World. rewrite list.filter_app, length_app.
  assert (H0 : filter (fun e => is_popen e = true) evs = []).
  { induction Hev as [|e evs He _ IH]; [reflexivity|].
    rewrite list.filter_cons. destruct e; simpl in *; try discriminate; exact IH. }
  rewrite H0. simpl. lia.
Qed.

(** X8.  Whatever the services answer and however the run ends, a run of
    the researcher graph leaves the plan, the cursor, the execution
    history, [user_validated] and [file_context] as they were, keeps the
    messages and the research output it started with as a prefix of the
    final ones, and spawns no process. *)
Theorem researcher_run_frame k st w :
  let r := Researcher.run llm client k st w in
  plan (final r) = plan st /\
  current_step_index (final r) = current_step_index st /\
  execution_history (final r) = execution_history st /\
  user_validated (final r) = user_validated st /\
  file_context (final r) = file_context st /\
  messages st `prefix_of` messages (final r) /\
  default [] (research_outputs st) `prefix_of` default [] (research_outputs (final r)) /\
  count is_popen (world r) = count is_popen w.
Proof.
  intros r.
  destruct (researcher_run_keeps k st w) as [(H1 & H2 & H3 & H4 & H5 & H7 & H8) Hw].
  repeat split; try assumption. now apply services_spawn_nothing.
Qed.

(** The draft, with what it leaves behind. *)
Lemma draft_ends_with k st w l :
  messages st <> [] ->
  research_outputs st = Some l ->
  exists st' w' answer,
    rrun (S k) false dr st w =
      {| halt := Ended; final := st'; world := w';
         visits := [Build_Visit dr st st'] |} /\
    messages st' = (messages st ++ [{| role := ai; content := answer |}])%list /\
    research_outputs st' = Some l.
Proof.
  intros Hm Hl. destruct (drafter_returns llm st w l Hm Hl) as (u & w' & Hd).
  destruct (drafter_keeps _ _ _ _ Hd) as (_ & _ & answer & Ha & Ho).
  exists (apply_update st u), w', answer. split; [|split; [exact Ha | now rewrite Ho]].
  apply run_ends; [reflexivity | | reflexivity].
  simpl. unfold Graph.effectful. rewrite Hd. reflexivity.
Qed.

(** The two shapes of a run of the researcher. *)
Lemma researcher_run_shape st w :
  messages st <> [] ->
  let r := Researcher.run llm client 5 st w in
  halt r = Ended /\
  exists new answer,
    research_outputs (final r) = Some (default [] (research_outputs st) ++ new)%list /\
    length new = Researcher.searches r /\
    messages (final r) = (messages st ++ [{| role := ai; content := answer |}])%list /\
    ((map at_node (visits r) = [se; gr; dr] /\ Researcher.searches r = 1%nat) \/
     (map at_node (visits r) = [se; gr; se; gr; dr] /\ Researcher.searches r = 2%nat /\
      default [] (research_outputs st) = [])).
Proof.
  intros Hm r. subst r. unfold Researcher.run, Researcher.entry_point.
  destruct (search_then_grade llm client 3 st w Hm)
    as (st1 & st2 & w2 & x & Hm2 & Ho2 & Hrun).
  pose proof (follow_grader st2 _ Ho2) as Hf.
  assert (Hm2' : messages st2 <> []) by now rewrite Hm2.
  destruct (2 <=? len (default [] (research_outputs st) ++ [x])%list) eqn:Hlen.
  - rewrite (Hrun _ Hf).
    destruct (draft_ends_with 2 st2 w2 _ Hm2' Ho2) as (st3 & w3 & answer & -> & Ha & Ho).
    simpl. split; [reflexivity|]. exists [x], answer.
    rewrite Ho, Ha, Hm2. unfold Researcher.searches. simpl.
    repeat split. left. split; reflexivity.
  - assert (Hinit : default [] (research_outputs st) = []).
    { destruct (default [] (research_outputs st)); [reflexivity|].
      apply Z.leb_gt in Hlen. unfold len in Hlen.
      rewrite length_app in Hlen. simpl in Hlen. lia. }
    rewrite (Hrun _ Hf).
    destruct (search_then_grade llm client 1 st2 w2 Hm2')
      as (st3 & st4 & w4 & x' & Hm4 & Ho4 & Hrun').
    rewrite Ho2 in Ho4. simpl in Ho4.
    pose proof (follow_grader st4 _ Ho4) as Hf'.
    assert (Hdr : follow Researcher.edge gr st4 = Ok (Some dr)).
    { rewrite Hf', Hinit. reflexivity. }
    cbv zeta. rewrite (Hrun' _ Hdr).
    assert (Hm4' : messages st4 <> []) by now rewrite Hm4, Hm2.
    destruct (draft_ends_with 0 st4 w4 _ Hm4' Ho4) as (st5 & w5 & answer & -> & Ha & Ho).
    simpl. split; [reflexivity|]. exists [x; x'], answer.
    rewrite Ho, Ha, Hm4, Hm2, <- app_assoc. unfold Researcher.searches. simpl.
    repeat split. right. repeat split. exact Hinit.
Qed.

(** X9.  On a thread with at least one message, a run of the researcher
    graph ends at [END] within five node visits, whatever the completion
    and search services answer (a failing search included): the research
    output grows by exactly one entry for each entry into
    [search_engine], and the messages grow by exactly one message, the
    answer of [drafter], which is an AI message. *)
Theorem researcher_run_grows st w :
  messages st <> [] ->
  let r := Researcher.run llm client 5 st w in
  halt r = Ended /\
  exists new answer,
    research_outputs (final r) = Some (default [] (research_outputs st) ++ new)%list /\
    length new = Researcher.searches r /\
    messages (final r) = (messages st ++ [{| role := ai; content := answer |}])%list.
Proof.
  intros Hm r. destruct (researcher_run_shape st w Hm) as (Hh & new & answer & H1 & H2 & H3 & _).
  split; [exact Hh|]. exists new, answer. repeat split; assumption.
Qed.

(** X10.  [research_outputs] is never reset, and [check_grade] counts its
    entries.  So on a thread that already holds research output of an
    earlier turn, the researcher searches once and goes to [drafter]
    whatever the grader says: there is no second search. *)
Theorem researcher_no_retry_after_earlier_research st w :
  messages st <> [] ->
  default [] (research_outputs st) <> [] ->
  let r := Researcher.run llm client 5 st w in
  halt r = Ended /\
  map at_node (visits r) = [se; gr; dr] /\
  Researcher.searches r = 1%nat.
Proof.
  intros Hm Hne r.
  destruct (researcher_run_shape st w Hm) as (Hh & new & answer & _ & _ & _ & [[Hv Hs]|(_ & _ & He)]).
  - repeat split; assumption.
  - contradiction.
Qed.
End ResearcherFrame.

Lemma researcher_run_grows_witness :
  let st := Sample.state in
  let r := Researcher.run (Sample.llm_const "NO") More.client_one 5 st [] in
  halt r = Ended /\
  exists new answer,
    research_outputs (final r) = Some (default [] (research_outputs st) ++ new)%list /\
    length new = Researcher.searches r /\
    messages (final r) = (messages st ++ [{| role := ai; content := answer |}])%list.
Proof.
  apply (researcher_run_grows (Sample.llm_const "NO") More.client_one Sample.state []).
  discriminate.
Defined.

Lemma researcher_no_retry_after_earlier_research_witness :
  let r := Researcher.run (Sample.llm_const "NO") More.client_one 5 More.researched [] in
  halt r = Ended /\
  map at_node (visits r) =
    [Researcher.search_engine_; Researcher.grader_; Researcher.drafter_] /\
  Researcher.searches r = 1%nat.
Proof.
  apply (researcher_no_retry_after_earlier_research
           (Sample.llm_const "NO") More.client_one More.researched []);
    discriminate.
Defined.

(** ** More on the planner *)

Lemma has_status_appended m v :
  Planner.has_status (Planner.JObject (m ++ [("status", v)])) = Ok true.
Proof.
  simpl. f_equal. rewrite existsb_app. simpl. apply orb_true_r.
Qed.

Lemma ensure_status_stable x x' : Planner.ensure_status x = Ok x' -> Planner.ensure_status x' = Ok x'.
Proof.
  unfold Planner.ensure_status. destruct (Planner.has_status x) as [[|]|e] eqn:Hs; simpl; intros H.
  - injection H as <-. now rewrite Hs.
  - destruct x; try discriminate H. injection H as <-.
    now rewrite has_status_appended.
  - discriminate H.
Qed.

Lemma each_stable l : forall l', Planner.each l = Ok l' -> Planner.each l' = Ok l'.
Proof.
  induction l as [|x l IH]; simpl; intros l' H.
  - injection H as <-. reflexivity.
  - destruct (Planner.ensure_status x) as [x'|e] eqn:Hx; simpl in H; [|discriminate].
    destruct (Planner.each l) as [r|e] eqn:Hr; simpl in H; [|discriminate].
    injection H as <-. simpl. rewrite (ensure_status_stable _ _ Hx). simpl.
    now rewrite (IH r eq_refl).
Qed.

(** X11.  The defaulting of the statuses of the parsed plan (the loop
    [for step in plan_data: if "status" not in step: step["status"] =
    "pending"]) is idempotent: run again on its own result it raises
    nothing and changes nothing. *)
Theorem default_statuses_idempotent d d' :
  Planner.default_statuses d = Ok d' -> Planner.default_statuses d' = Ok d'.
Proof.
  destruct d; try discriminate.
  - intros H. unfold Planner.default_statuses in H. simpl in H.
    destruct (Planner.each (map _ _)) eqn:E; simpl in H; [|discriminate].
    injection H as <-. unfold Planner.default_statuses. simpl. now rewrite E.
  - unfold Planner.default_statuses at 1. simpl.
    destruct (Planner.each l) as [l'|e] eqn:E; simpl; [|discriminate].
    intros H. injection H as <-. unfold Planner.default_statuses. simpl.
    now rewrite (each_stable _ _ E).
  - intros H. unfold Planner.default_statuses in H. simpl in H.
    destruct (Planner.each (map _ _)) eqn:E; simpl in H; [|discriminate].
    injection H as <-. unfold Planner.default_statuses. simpl. now rewrite E.
Qed.

Lemma default_statuses_idempotent_witness :
  Planner.default_statuses
    (Planner.JArray [Planner.JObject [("id", Planner.JString "1"); ("description", Planner.JString "list");
                      ("command", Planner.JString "ls"); ("risk_level", Planner.JString "LOW");
                      ("status", Planner.JString "pending")]]) =
  Ok (Planner.JArray [Planner.JObject [("id", Planner.JString "1"); ("description", Planner.JString "list");
                       ("command", Planner.JString "ls"); ("risk_level", Planner.JString "LOW");
                       ("status", Planner.JString "pending")]]).
Proof. apply (default_statuses_idempotent More.one_step_json). reflexivity. Defined.

Lemma ensure_status_type_error x e : Planner.ensure_status x = Raise e -> exc_kind e = TypeError.
Proof.
  unfold Planner.ensure_status. destruct x; simpl; intros H;
    try (injection H as <-; reflexivity);
    repeat match type of H with
           | context [if ?b then _ else _] => destruct b
           end; try discriminate H; injection H as <-; reflexivity.
Qed.

Lemma each_type_error l : forall e, Planner.each l = Raise e -> exc_kind e = TypeError.
Proof.
  induction l as [|x l IH]; simpl; intros e H; [discriminate|].
  destruct (Planner.ensure_status x) as [x'|e'] eqn:Hx; simpl in H.
  - destruct (Planner.each l) as [r|e''] eqn:Hr; simpl in H; [discriminate|].
    injection H as <-. now apply IH.
  - injection H as <-. now apply (ensure_status_type_error x).
Qed.

Lemma ensure_status_scalar x : scalar x -> exists e, Planner.ensure_status x = Raise e.
Proof. destruct x; simpl; intros H; try contradiction; eexists; reflexivity. Qed.

Lemma each_scalar l x : In x l -> scalar x -> exists e, Planner.each l = Raise e.
Proof.
  induction l as [|y l IH]; simpl; intros Hin Hs; [contradiction|].
  destruct (Planner.ensure_status y) as [y'|e] eqn:Hy; simpl; [|eauto].
  destruct Hin as [->|Hin].
  - destruct (ensure_status_scalar x Hs) as (e & He). congruence.
  - destruct (IH Hin Hs) as (e & ->). simpl. eauto.
Qed.

Lemma default_statuses_scalar d :
  scalar d \/ (exists l x, d = Planner.JArray l /\ In x l /\ scalar x) ->
  exists e, Planner.default_statuses d = Raise e /\ exc_kind e = TypeError.
Proof.
  intros [Hs|(l & x & -> & Hin & Hs)].
  - destruct d; simpl in Hs; try contradiction; eexists; split; reflexivity.
  - destruct (each_scalar l x Hin Hs) as (e & He).
    exists e. split; [|now apply (each_type_error l)].
    unfold Planner.default_statuses. simpl. now rewrite He.
Qed.

Section PlannerMore.
Variable llm : nat -> list Message -> string.
Variable json_loads : string -> result Planner.json.
Variable PLANNER_PROMPT : string.
Variable json_dumps : list PlanStep -> string.

Lemma parse_cleaned response :
  Planner.parse json_loads response =
    (plan_data ← json_loads (cleaned response); Planner.default_statuses plan_data).
Proof. reflexivity. Qed.

(** X12.  When the text the model returns parses as JSON but is [null],
    a boolean or a number, or an array that holds one of these, the
    status loop raises TypeError; [draft_plan] catches it and returns an
    empty plan with one system message "Error generating plan: ...",
    writes neither the cursor nor [user_validated], and has called the
    completion service once. *)
Theorem draft_plan_rejects_scalars st w d :
  let response := llm (count is_complete w) (planner_request PLANNER_PROMPT st) in
  json_loads (cleaned response) = Ok d ->
  scalar d \/ (exists l x, d = Planner.JArray l /\ In x l /\ scalar x) ->
  exists e,
    exc_kind e = TypeError /\
    Planner.draft_plan llm json_loads PLANNER_PROMPT st w =
      Some (Ok ({| u_messages :=
                     Some (NewMessages
                             [SystemMessage ("Error generating plan: " +:+ exc_str e)]);
                   u_plan := Some [];
                   u_current_step_index := None;
                   u_research_outputs := None; u_execution_history := None;
                   u_user_validated := None; u_grader_decision := None;
                   u_route_target := None |},
                (w ++ [EvComplete (count is_complete w)])%list)).
Proof.
  intros response Hj Hd.
  destruct (default_statuses_scalar d Hd) as (e & He & Hk).
  exists e. split; [exact Hk|].
  unfold Planner.draft_plan, Planner.invoke, llm_invoke. cbv beta iota zeta.
  fold (planner_request PLANNER_PROMPT st). fold response.
  rewrite parse_cleaned, Hj. simpl. rewrite He. reflexivity.
Qed.
End PlannerMore.

Lemma draft_plan_rejects_scalars_witness :
  exists e,
    exc_kind e = TypeError /\
    Planner.draft_plan (Sample.llm_const "[null]") More.json_loads_null_step
      "You are an expert technical planner." Sample.state [] =
      Some (Ok ({| u_messages :=
                     Some (NewMessages
                             [SystemMessage ("Error generating plan: " +:+ exc_str e)]);
                   u_plan := Some [];
                   u_current_step_index := None;
                   u_research_outputs := None; u_execution_history := None;
                   u_user_validated := None; u_grader_decision := None;
                   u_route_target := None |},
                ([] ++ [EvComplete (count is_complete [])])%list)).
Proof.
  apply (draft_plan_rejects_scalars (Sample.llm_const "[null]") More.json_loads_null_step
           "You are an expert technical planner." Sample.state [] (Planner.JArray [Planner.JNull])).
  - reflexivity.
  - right. exists [Planner.JNull], Planner.JNull. repeat split. simpl. left. reflexivity.
Defined.

Lemma assoc_app_other {A} key (m : list (string * A)) k v :
  k <> key -> Graph.assoc key (m ++ [(k, v)]) = Graph.assoc key m.
Proof.
  intros Hne. induction m as [|[k' v'] m IH]; simpl.
  - apply String.eqb_neq in Hne. now rewrite Hne.
  - destruct (String.eqb k' key); [reflexivity | exact IH].
Qed.

Lemma assoc_app_new {A} key (m : list (string * A)) v :
  Graph.assoc key m = None -> Graph.assoc key (m ++ [(key, v)]) = Some v.
Proof.
  induction m as [|[k' v'] m IH]; simpl.
  - now rewrite String.eqb_refl.
  - destruct (String.eqb k' key); [discriminate | exact IH].
Qed.

Lemma has_status_object m :
  Planner.field "status" m = None -> Planner.has_status (Planner.JObject m) = Ok false.
Proof.
  unfold Planner.field. simpl. intros H. f_equal.
  induction m as [|[k v] m IH]; simpl in *; [reflexivity|].
  destruct (String.eqb k "status"); [discriminate | now apply IH].
Qed.

Lemma each_lookup l : forall l' k x,
  Planner.each l = Ok l' -> l !! k = Some x ->
  exists x', l' !! k = Some x' /\ Planner.ensure_status x = Ok x'.
Proof.
  induction l as [|y l IH]; simpl; intros l' k x H Hk; [discriminate|].
  destruct (Planner.ensure_status y) as [y'|e] eqn:Hy; simpl in H; [|discriminate].
  destruct (Planner.each l) as [r|e] eqn:Hr; simpl in H; [|discriminate].
  injection H as <-. destruct k as [|k]; simpl in *.
  - injection Hk as <-. eauto.
  - now apply (IH r).
Qed.

Lemma as_step_pending m s :
  Planner.field "status" m = None ->
  Planner.as_step (Planner.JObject (m ++ [("status", Planner.JString "pending")])) = Some s ->
  status s = "pending" /\
  Planner.str_field "id" m = Some (id s) /\
  Planner.str_field "description" m = Some (description s) /\
  Planner.str_field "risk_level" m = Some (risk_level s).
Proof.
  intros Hno. unfold Planner.as_step, Planner.str_field, Planner.field. intros H.
  rewrite (assoc_app_other "id"), (assoc_app_other "description"),
    (assoc_app_other "command"), (assoc_app_other "risk_level"),
    (assoc_app_other "output") in H by discriminate.
  rewrite (assoc_app_new "status" m _ Hno) in H.
  destruct (Graph.assoc "id" m) as [[| | |i| |]|]; simpl in H; try discriminate H.
  destruct (Graph.assoc "description" m) as [[| | |d| |]|]; simpl in H; try discriminate H.
  destruct (Graph.assoc "command" m) as [[| | |c| |]|]; simpl in H; try discriminate H;
    (destruct (Graph.assoc "risk_level" m) as [[| | |r| |]|]; simpl in H;
     try discriminate H;
     destruct (Graph.assoc "output" m) as [[| | |o| |]|]; simpl in H;
     try discriminate H;
     injection H as <-; repeat split).
Qed.

Section PlannerDrafts.
Variable llm : nat -> list Message -> string.
Variable json_loads : string -> result Planner.json.
Variable PLANNER_PROMPT : string.
Variable json_dumps : list PlanStep -> string.


(** X14.  [plan_refiner], unlike [draft_plan], writes no cursor.  When
    the answer of the completion service parses to a plan, the plan of
    the state is replaced by that plan, [user_validated] is set to false
    and the messages are unchanged; when it does not parse, the old plan
    and [user_validated] stay and one system message "Error refining
    plan: ..." with the text of the exception is added.  Either way the
    cursor, the execution history and the research output are those the
    rejected plan left, and the completion service was called once. *)
Theorem plan_refiner_keeps_cursor st w last :
  getitem (messages st) (-1) = Ok last ->
  let response :=
    llm (count is_complete w) (refiner_request PLANNER_PROMPT json_dumps st last) in
  let w' := (w ++ [EvComplete (count is_complete w)])%list in
  (forall d p,
     Planner.parse json_loads response = Ok d ->
     Planner.as_plan d = Some p ->
     exists u,
       Planner.plan_refiner llm json_loads PLANNER_PROMPT json_dumps st w =
         Some (Ok (u, w')) /\
       let st' := apply_update st u in
       plan st' = p /\
       user_validated st' = Some false /\
       messages st' = messages st /\
       current_step_index st' = current_step_index st /\
       execution_history st' = execution_history st /\
       research_outputs st' = research_outputs st) /\
  (forall e,
     Planner.parse json_loads response = Raise e ->
     exists u,
       Planner.plan_refiner llm json_loads PLANNER_PROMPT json_dumps st w =
         Some (Ok (u, w')) /\
       let st' := apply_update st u in
       plan st' = plan st /\
       user_validated st' = user_validated st /\
       messages st' =
         (messages st ++ [SystemMessage ("Error refining plan: " +:+ exc_str e)])%list /\
       current_step_index st' = current_step_index st /\
       execution_history st' = execution_history st /\
       research_outputs st' = research_outputs st).
Proof.
  intros Hlast response w'.
  assert (Hrun : Planner.plan_refiner llm json_loads PLANNER_PROMPT json_dumps st w =
                 match Planner.parse json_loads response with
                 | Ok d =>
                     p ← Planner.as_plan d;
                     Some (Ok ({| u_messages := None; u_plan := Some p;
                                  u_current_step_index := None;
                                  u_research_outputs := None; u_execution_history := None;
                                  u_user_validated := Some false;
                                  u_grader_decision := None; u_route_target := None |}, w'))
                 | Raise e =>
                     Some (Ok ({| u_messages :=
                                    Some (NewMessages
                                            [SystemMessage ("Error refining plan: " +:+
                                                            exc_str e)]);
                                  u_plan := None; u_current_step_index := None;
                                  u_research_outputs := None; u_execution_history := None;
                                  u_user_validated := None;
                                  u_grader_decision := None; u_route_target := None |}, w'))
                 end).
  { unfold Planner.plan_refiner. rewrite Hlast. reflexivity. }
  split.
  - intros d p Hd Hp. rewrite Hrun, Hd, Hp. eexists. split; [reflexivity|].
    simpl. repeat split.
  - intros e He. rewrite Hrun, He. eexists. split; [reflexivity|].
    simpl. repeat split.
Qed.
End PlannerDrafts.


Lemma plan_refiner_keeps_cursor_witness :
  let st := Sample.with_plan [Sample.step "1" "make"] 1 (Sample.approved Sample.state) in
  exists u,
    Planner.plan_refiner (Sample.llm_const "[...]") More.json_loads_one_step
      "You are an expert technical planner." Sample.json_dumps_any st [] =
      Some (Ok (u, [EvComplete 0])) /\
    let st' := apply_update st u in
    plan st' =
      [{| id := "1"; description := "list"; command := Str "ls";
          risk_level := "LOW"; status := "pending"; output := None |}] /\
    user_validated st' = Some false /\
    messages st' = messages st /\
    current_step_index st' = Some 1 /\
    execution_history st' = None /\
    research_outputs st' = None.
Proof.
  destruct (plan_refiner_keeps_cursor (Sample.llm_const "[...]") More.json_loads_one_step
              "You are an expert technical planner." Sample.json_dumps_any
              (Sample.with_plan [Sample.step "1" "make"] 1 (Sample.approved Sample.state))
              [] (HumanMessage "clean the build directory") eq_refl) as [H _].
  eapply H; reflexivity.
Defined.

(** ** The search tool *)

(** X15.  [TavilySearch.search] returns the text "No results found."
    exactly when the client returned an empty list of results (not when
    the client raised, and not for any list of hits, however empty their
    fields), and in every case it has made exactly one call to the search
    service. *)
Theorem search_no_results client query w :
  let r := TavilySearch.search client query w in
  (r.1 = "No results found." <-> client (count is_search w) query = Ok []) /\
  r.2 = (w ++ [EvSearch query])%list.
Proof.
  unfold TavilySearch.search.
  destruct (client (count is_search w) query) as [[|h hits]|e]; simpl.
  - split; [tauto | reflexivity].
  - split; [|reflexivity]. split; [|discriminate].
    destruct hits; simpl; discriminate.
  - split; [|reflexivity]. split; discriminate.
Qed.

(** ** More on the turns of the main graph *)

Lemma run_node_none {Node} (invoke : Node -> GlobalState -> World -> option (result (GlobalState * World)))
  edge interrupt_before k resumed n st w :
  interrupt_before n && negb resumed = false ->
  invoke n st w = None ->
  Graph.run invoke edge interrupt_before (S k) resumed n st w =
    {| halt := OutOfSteps; final := st; world := w; visits := [Build_Visit n st st] |}.
Proof. intros Hi Hn. simpl. now rewrite Hi, Hn. Qed.

Lemma subgraph_ok {Node} (r : Run Node) st' w' :
  Graph.subgraph r = Some (Ok (st', w')) ->
  halt r = Ended /\ st' = final r /\ w' = world r.
Proof.
  unfold Graph.subgraph. destruct (halt r); intros H; try discriminate H.
  injection H as <- <-. repeat split.
Qed.

Lemma subgraph_ended {Node} (r : Run Node) :
  halt r = Ended -> Graph.subgraph r = Some (Ok (final r, world r)).
Proof. unfold Graph.subgraph. now intros ->. Qed.

Section TurnsMore.
Variable os : nat -> string -> Z -> Launch.
Variable llm : nat -> list Message -> string.
Variable client : nat -> string -> result (list TavilySearch.Hit).
Variable json_loads : string -> result Planner.json.
Variable json_dumps : list PlanStep -> string.
Variable PLANNER_PROMPT : string.

Local Abbreviation stream :=
  (Main.stream os llm client json_loads json_dumps PLANNER_PROMPT).
Local Abbreviation resume :=
  (Main.resume os llm client json_loads json_dumps PLANNER_PROMPT).
Local Abbreviation minvoke :=
  (Main.invoke os llm client json_loads json_dumps PLANNER_PROMPT).
Local Abbreviation mrun :=
  (Graph.run minvoke Main.edge Main.interrupt_before).

Lemma router_returns st w u w' :
  Main.router llm st w = Ok (u, w') ->
  (u = route_update "planner" \/ u = route_update "researcher" \/ u = route_update "chat") /\
  w' = (w ++ [EvComplete (count is_complete w)])%list.
Proof.
  unfold Main.router.
  destruct (getitem (messages st) (-1)) as [m|e]; simpl; [|discriminate].
  unfold llm_invoke. cbv beta iota zeta.
  destruct (contains "EXECUTE" _); [|destruct (contains "RESEARCH" _)];
    intros H; injection H as <- <-; split; auto.
Qed.

(** [route_request] finds no route in the state, whatever [router]
    returned, and falls back on "chat_node". *)
Lemma follow_router st :
  Graph.follow Main.edge Main.router_ st = Ok (Some Main.chat_node_).
Proof. reflexivity. Qed.

Lemma planner_node_log st w st' w' :
  minvoke Main.planner_ st w = Some (Ok (st', w')) -> extends of_services w w'.
Proof.
  simpl. intros H. apply subgraph_ok in H as (_ & _ & ->).
  unfold Planner.run.
  destruct (run_keeps (Planner.invoke_node llm json_loads PLANNER_PROMPT json_dumps)
              Planner.edge (fun _ => false) (fun _ _ => True) (extends of_services)
              (fun _ => I) (fun _ _ _ _ _ => I)
              (extends_refl of_services) (extends_trans of_services)) with
    (k := Main.planner_steps) (n := Planner.entry_point) (st := st) (w := w)
    as (_ & Hw & _); [|exact Hw].
  intros n s0 w0 s1 w1 _ Hn. split; [exact I|].
  destruct n; simpl in Hn; unfold Planner.lift in Hn.
  - unfold Planner.draft_plan, Planner.invoke, llm_invoke in Hn. cbv beta iota zeta in Hn.
    destruct (Planner.parse json_loads _) as [d|e]; simpl in Hn.
    + destruct (Planner.as_plan d); simpl in Hn; [|discriminate].
      injection Hn as <- <-. eexists. split; [reflexivity | repeat constructor].
    + injection Hn as <- <-. eexists. split; [reflexivity | repeat constructor].
  - unfold Planner.plan_refiner, Planner.invoke, llm_invoke in Hn.
    destruct (getitem (messages s0) (-1)) as [last|e]; simpl in Hn; [|discriminate].
    cbv beta iota zeta in Hn.
    destruct (Planner.parse json_loads _) as [d|e]; simpl in Hn.
    + destruct (Planner.as_plan d); simpl in Hn; [|discriminate].
      injection Hn as <- <-. eexists. split; [reflexivity | repeat constructor].
    + injection Hn as <- <-. eexists. split; [reflexivity | repeat constructor].
Qed.

Lemma main_node_log n st w st' w' :
  Main.interrupt_before n = false ->
  minvoke n st w = Some (Ok (st', w')) ->
  extends of_services w w'.
Proof.
  destruct n; intros Hi H; try discriminate Hi.
  - simpl in H. unfold Graph.effectful in H.
    destruct (Main.router llm st w) as [[u w1]|e] eqn:Hr; simpl in H; [|discriminate].
    injection H as <- <-. apply router_returns in Hr as [_ ->].
    eexists. split; [reflexivity | repeat constructor].
  - simpl in H. unfold Graph.effectful, Main.chat_node, llm_invoke in H.
    cbv beta iota zeta in H. simpl in H. injection H as <- <-.
    eexists. split; [reflexivity | repeat constructor].
  - now apply (planner_node_log st w st').
  - simpl in H. apply subgraph_ok in H as (_ & _ & ->).
    apply researcher_run_keeps.
Qed.

(** X16.  A turn started by [graph.stream] with a user message, up to
    its end or to the interrupt, spawns no process and kills none,
    whatever the services answer: [executor] is not among the nodes it
    enters. *)
Theorem turn_spawns_nothing st input_message w :
  let r := stream st input_message w in
  count is_popen (world r) = count is_popen w /\
  count is_kill (world r) = count is_kill w /\
  Forall (fun v => at_node v <> Main.executor_) (visits r).
Proof.
  intros r. subst r. unfold Main.stream.
  destruct (run_keeps minvoke Main.edge Main.interrupt_before
              (fun _ _ => True) (extends of_services)
              (fun _ => I) (fun _ _ _ _ _ => I)
              (extends_refl of_services) (extends_trans of_services)) with
    (k := Main.main_steps) (n := Main.entry_point)
    (st := apply_update st (input_update input_message)) (w := w)
    as (_ & Hw & Hv).
  { intros n s0 w0 s1 w1 Hi Hn. split; [exact I|]. now apply (main_node_log n s0 w0 s1). }
  fold (input_update input_message).
  split; [now apply services_spawn_nothing|]. split.
  - destruct Hw as (evs & -> & Hev). unfold count, World.
    rewrite list.filter_app, length_app.
    assert (H0 : filter (fun e => is_kill e = true) evs = []).
    { induction Hev as [|e evs He _ IH]; [reflexivity|].
      rewrite list.filter_cons. destruct e; simpl in *; try discriminate; exact IH. }
    rewrite H0. simpl. lia.
  - eapply Forall_impl; [exact Hv|]. intros [n b a] Hi Heq; simpl in *. subst n. discriminate Hi.
Qed.

Lemma stream_starts st input_message w :
  stream st input_message w =
    mrun Main.main_steps false Main.router_ (apply_update st (input_update input_message)) w.
Proof. reflexivity. Qed.

Lemma input_messages st input_message :
  messages (apply_update st (input_update input_message)) =
    (messages st ++ [HumanMessage input_message])%list.
Proof. reflexivity. Qed.

Lemma count_complete_snoc w n :
  count is_complete (w ++ [EvComplete n])%list = S (count is_complete w).
Proof.
  unfold count, World. rewrite list.filter_app, length_app. simpl. lia.
Qed.

Lemma route_dropped st target : apply_update st (route_update target) = st.
Proof. destruct st. reflexivity. Qed.

(** A turn, in full. *)
Lemma stream_goes_to_chat st input_message w :
  let thread := (messages st ++ [HumanMessage input_message])%list in
  let n := count is_complete w in
  let st0 := apply_update st (input_update input_message) in
  let st1 :=
    apply_update st0
      {| u_messages := Some (NewMessages [{| role := ai; content := llm (S n) thread |}]);
         u_plan := None; u_current_step_index := None;
         u_research_outputs := None; u_execution_history := None;
         u_user_validated := None; u_grader_decision := None;
         u_route_target := None |} in
  stream st input_message w =
    {| halt := Ended; final := st1;
       world := (w ++ [EvComplete n; EvComplete (S n)])%list;
       visits := [Build_Visit Main.router_ st0 st0; Build_Visit Main.chat_node_ st0 st1] |}.
Proof.
  intros thread n st0 st1. rewrite stream_starts. unfold Main.main_steps. fold st0.
  assert (Hne : messages st0 <> []).
  { simpl. intros H. apply app_eq_nil in H as [_ H]. discriminate H. }
  destruct (getitem_last _ Hne) as (m & Hg).
  destruct (Main.router llm st0 w) as [[u1 w1]|e] eqn:Hr.
  2: { unfold Main.router in Hr. rewrite Hg in Hr. simpl in Hr.
       unfold llm_invoke in Hr. cbv beta iota zeta in Hr.
       repeat match type of Hr with
              | context [if ?b then _ else _] => destruct b
              end; discriminate Hr. }
  destruct (router_returns _ _ _ _ Hr) as [Hu ->].
  assert (Hst : apply_update st0 u1 = st0)
    by (destruct Hu as [->|[->| ->]]; apply route_dropped).
  erewrite run_goes_on with (m := Main.chat_node_) (st' := st0);
    [| reflexivity
     | unfold Main.invoke, Graph.effectful; rewrite Hr; simpl; now rewrite Hst
     | apply follow_router].
  cbv zeta.
  erewrite run_ends with (st' := st1)
    (w' := (w ++ [EvComplete n; EvComplete (S n)])%list);
    [reflexivity | reflexivity | | reflexivity].
  unfold Main.invoke, Graph.effectful, Main.chat_node, llm_invoke.
  cbv beta iota zeta. rewrite count_complete_snoc, <- app_assoc. reflexivity.
Qed.


(** X18.  All a turn changes in the thread are the messages: they gain
    the user message and one AI message, the answer of the completion
    service to the whole thread; the plan, the cursor, the research
    output, the execution history, [user_validated] and [file_context]
    are as before.  The completion service is called twice, once by
    [router] and once by [chat_node], and nothing else is done: no
    search, no process. *)
Theorem turn_answers_in_chat st input_message w :
  let r := stream st input_message w in
  let thread := (messages st ++ [HumanMessage input_message])%list in
  let n := count is_complete w in
  messages (final r) = (thread ++ [{| role := ai; content := llm (S n) thread |}])%list /\
  plan (final r) = plan st /\
  current_step_index (final r) = current_step_index st /\
  research_outputs (final r) = research_outputs st /\
  execution_history (final r) = execution_history st /\
  user_validated (final r) = user_validated st /\
  file_context (final r) = file_context st /\
  world r = (w ++ [EvComplete n; EvComplete (S n)])%list.
Proof.
  intros r. subst r. rewrite stream_goes_to_chat. repeat split.
Qed.
End TurnsMore.

Lemma subgraph_raised {Node} (r : Run Node) e n :
  halt r = Raised e n -> Graph.subgraph r = Some (Raise e).
Proof. unfold Graph.subgraph. now intros ->. Qed.

Lemma validated_plan st : plan (validated st) = plan st.
Proof. reflexivity. Qed.

Lemma validated_cursor st : current_step_index (validated st) = current_step_index st.
Proof. reflexivity. Qed.

Lemma run_empty_plan os st w k :
  plan st = [] ->
  exists nodes,
    halt (Executor.run os (S (S k)) st w) =
      Raised (Exc IndexError "list index out of range") nodes.
Proof.
  intros Hp.
  destruct (current_step_index st) as [i|] eqn:Hi.
  - destruct (Z_le_gt_dec 0 i) as [Hge|Hlt].
    + eexists. rewrite (run_past_end os st w i k Hi); [reflexivity|].
      rewrite Hp. simpl. exact Hge.
    + eexists. unfold Executor.run, Executor.entry_point.
      erewrite run_node_raises; [reflexivity | reflexivity |].
      unfold Executor.invoke, Graph.plain, Executor.step_parser.
      rewrite Hi, Hp. unfold getitem, position.
      change (len (@nil PlanStep)) with 0. simpl default.
      destruct (0 <=? i) eqn:E; [lia|].
      destruct (i <? 0) eqn:E1; [|lia].
      destruct (- 0 <=? i) eqn:E2; [lia|]. reflexivity.
  - eexists. unfold Executor.run, Executor.entry_point.
    erewrite run_goes_on with (m := Executor.safety_guard_);
      [| reflexivity
       | unfold Executor.invoke, Graph.plain, Executor.step_parser;
         rewrite Hi, Hp; reflexivity
       | reflexivity].
    cbv zeta.
    erewrite run_node_raises; [reflexivity | reflexivity |].
    unfold Executor.invoke, Graph.plain, Executor.safety_guard. simpl.
    rewrite Hp. reflexivity.
Qed.

Section Resume.
Variable os : nat -> string -> Z -> Launch.
Variable llm : nat -> list Message -> string.
Variable client : nat -> string -> result (list TavilySearch.Hit).
Variable json_loads : string -> result Planner.json.
Variable json_dumps : list PlanStep -> string.
Variable PLANNER_PROMPT : string.

Local Abbreviation stream :=
  (Main.stream os llm client json_loads json_dumps PLANNER_PROMPT).
Local Abbreviation resume :=
  (Main.resume os llm client json_loads json_dumps PLANNER_PROMPT).
Local Abbreviation minvoke :=
  (Main.invoke os llm client json_loads json_dumps PLANNER_PROMPT).
Local Abbreviation mrun :=
  (Graph.run minvoke Main.edge Main.interrupt_before).

Lemma resume_starts r n :
  halt r = Interrupted n ->
  resume r = mrun 3 true n (validated (final r)) (world r).
Proof. intros H. unfold Main.resume. rewrite H. reflexivity. Qed.


End Resume.


